(** * ScrapingWeatherJP: hourly precipitation scraper

    A shallow embedding of [scraping_weather.py] and the properties of its
    four components:

    - [select_weather_observatory]  (Station Classifier)
    - [string_to_float]             (Value Coercer)
    - [scraping_day_per_hour]       (Day Extractor)
    - [create_csv_hour]             (Range Collector)

    Python [str] values are Rocq strings holding the UTF-8 encoding of the
    text.  Python values that end up in a CSV row are the cases of [pyval].
    Exceptions are the cases of [exn]; code that prints, sleeps, fetches or
    writes runs in the state-and-exception monad [M]. *)

From Stdlib Require Import ZArith List String Ascii Bool Lia Sorted.
From Stdlib Require Import Floats.SpecFloat DecimalString.
Import ListNotations.

Local Open Scope string_scope.
Local Open Scope Z_scope.

(** ** Python built-ins used by the script *)

Module Py.

(** Exceptions the script can meet.  None of them is caught, except by the
    bare [except:] of [string_to_float]. *)
Inductive exn : Type :=
| ValueError        (* float() on text that is no number *)
| AttributeError    (* method call on None *)
| IndexError        (* list index out of range *)
| OverflowError     (* date value out of range *)
| URLError.         (* urlopen could not fetch the resource *)

Inductive result (A : Type) : Type :=
| Ok (a : A)
| Raise (e : exn).
Arguments Ok {A} a.
Arguments Raise {A} e.

(** Binary64, the format of Python's [float]. *)
Definition prec : Z := 53.
Definition emax : Z := 1024.
Definition pyfloat : Type := spec_float.

Definition is_finite (f : pyfloat) : bool :=
  match f with
  | S754_zero _ | S754_finite _ _ _ => true
  | S754_infinity _ | S754_nan => false
  end.

(** The value of a byte. *)
Definition code (c : ascii) : Z := Z.of_nat (nat_of_ascii c).

(** A continuation byte of UTF-8, [10xxxxxx]. *)
Definition is_cont (b : Z) : bool := (128 <=? b) && (b <? 192).

(** [len(s)]: the number of code points, that is the number of bytes of the
    UTF-8 encoding that are not continuation bytes. *)
Fixpoint len (s : string) : Z :=
  match s with
  | EmptyString => 0
  | String c s' => (if is_cont (code c) then 0 else 1) + len s'
  end.

(** *** Text as code points

    [float] and [int] read text one character at a time; the characters of
    a [str] are the code points its UTF-8 encoding decodes to. *)

Definition in_range (lo hi x : Z) : bool := (lo <=? x) && (x <=? hi).

Fixpoint decode_utf8 (l : list Z) : option (list Z) :=
  match l with
  | [] => Some []
  | b0 :: l1 =>
      if b0 <? 128 then option_map (cons b0) (decode_utf8 l1)
      else
        match l1 with
        | [] => None
        | b1 :: l2 =>
            if in_range 192 223 b0 then
              let cp := (b0 - 192) * 64 + (b1 - 128) in
              if is_cont b1 && (128 <=? cp)
              then option_map (cons cp) (decode_utf8 l2) else None
            else
              match l2 with
              | [] => None
              | b2 :: l3 =>
                  if in_range 224 239 b0 then
                    let cp := ((b0 - 224) * 64 + (b1 - 128)) * 64 + (b2 - 128) in
                    if is_cont b1 && is_cont b2 && (2048 <=? cp) &&
                       negb (in_range 55296 57343 cp)
                    then option_map (cons cp) (decode_utf8 l3) else None
                  else
                    match l3 with
                    | [] => None
                    | b3 :: l4 =>
                        let cp :=
                          (((b0 - 240) * 64 + (b1 - 128)) * 64 + (b2 - 128)) * 64
                          + (b3 - 128) in
                        if in_range 240 244 b0 && is_cont b1 && is_cont b2 &&
                           is_cont b3 && in_range 65536 1114111 cp
                        then option_map (cons cp) (decode_utf8 l4) else None
                    end
              end
        end
  end.

Definition code_points (s : string) : option (list Z) :=
  decode_utf8 (map code (list_ascii_of_string s)).

(** The code points of the digit zero of every run of ten decimal digits
    (general category Nd, Unicode 14.0). *)
Definition decimal_zeros : list Z :=
  [0x30; 0x660; 0x6f0; 0x7c0; 0x966; 0x9e6; 0xa66; 0xae6; 0xb66; 0xbe6;
   0xc66; 0xce6; 0xd66; 0xde6; 0xe50; 0xed0; 0xf20; 0x1040; 0x1090; 0x17e0;
   0x1810; 0x1946; 0x19d0; 0x1a80; 0x1a90; 0x1b50; 0x1bb0; 0x1c40; 0x1c50;
   0xa620; 0xa8d0; 0xa900; 0xa9d0; 0xa9f0; 0xaa50; 0xabf0; 0xff10; 0x104a0;
   0x10d30; 0x11066; 0x110f0; 0x11136; 0x111d0; 0x112f0; 0x11450; 0x114d0;
   0x11650; 0x116c0; 0x11730; 0x118e0; 0x11950; 0x11c50; 0x11d50; 0x11da0;
   0x16a60; 0x16ac0; 0x16b50; 0x1d7ce; 0x1d7d8; 0x1d7e2; 0x1d7ec; 0x1d7f6;
   0x1e140; 0x1e2f0; 0x1e950; 0x1fbf0].

(** The white space characters outside ASCII. *)
Definition unicode_spaces : list Z :=
  [0x85; 0xa0; 0x1680; 0x2000; 0x2001; 0x2002; 0x2003; 0x2004; 0x2005;
   0x2006; 0x2007; 0x2008; 0x2009; 0x200a; 0x2028; 0x2029; 0x202f; 0x205f;
   0x3000].

Definition unicode_decimal (cp : Z) : option Z :=
  option_map (fun z => cp - z)
    (List.find (fun z => in_range z (z + 9) cp) decimal_zeros).

Definition unicode_isspace (cp : Z) : bool := existsb (Z.eqb cp) unicode_spaces.

Definition ascii_of_code (n : Z) : ascii := ascii_of_nat (Z.to_nat n).

(** Before parsing a number CPython rewrites the text to ASCII: a code
    point below 127 is kept, a white space character becomes a space, a
    decimal digit becomes the ASCII digit of its value; any other
    character makes the text no number. *)
Fixpoint to_ascii (cps : list Z) : option (list ascii) :=
  match cps with
  | [] => Some []
  | cp :: cps' =>
      if cp <? 127 then option_map (cons (ascii_of_code cp)) (to_ascii cps')
      else if unicode_isspace cp
      then option_map (cons " "%char) (to_ascii cps')
      else
        match unicode_decimal cp with
        | Some d => option_map (cons (ascii_of_code (48 + d))) (to_ascii cps')
        | None => None
        end
  end.

Definition number_text (s : string) : option (list ascii) :=
  match code_points s with
  | Some cps => to_ascii cps
  | None => None
  end.

(** *** [float(s)] on text

    On the ASCII text CPython checks the underscores, which may only stand
    between two digits, and drops them, strips white space at both ends,
    reads an optional sign, then either one of the words [inf], [infinity],
    [nan] (in any case) or a decimal number with an optional exponent, and
    rounds the decimal value to the nearest binary64 number, ties to even.
    Anything else raises [ValueError]. *)

Definition is_space (c : ascii) : bool :=
  let n := code c in ((9 <=? n) && (n <=? 13)) || (n =? 32).

Definition is_digit (c : ascii) : bool :=
  let n := code c in (48 <=? n) && (n <=? 57).

Definition digit_value (c : ascii) : Z := code c - 48.

Definition lower (c : ascii) : ascii :=
  let n := code c in
  if (65 <=? n) && (n <=? 90) then ascii_of_nat (Z.to_nat (n + 32)) else c.

Fixpoint lstrip (l : list ascii) : list ascii :=
  match l with
  | c :: l' => if is_space c then lstrip l' else l
  | [] => []
  end.

Definition strip (l : list ascii) : list ascii :=
  rev (lstrip (rev (lstrip l))).

(** Underscores: each one must follow a digit and precede a digit; the
    valid ones are dropped.  [prev] is the character read before. *)
Fixpoint drop_underscores (prev : option ascii) (l : list ascii)
  : option (list ascii) :=
  match l with
  | [] =>
      match prev with
      | Some "_"%char => None
      | _ => Some []
      end
  | c :: l' =>
      if Ascii.eqb c "_"%char then
        match prev with
        | Some p => if is_digit p then drop_underscores (Some c) l' else None
        | None => None
        end
      else
        match prev with
        | Some "_"%char =>
            if is_digit c
            then option_map (cons c) (drop_underscores (Some c) l')
            else None
        | _ => option_map (cons c) (drop_underscores (Some c) l')
        end
  end.

(** Reads a run of digits: the value read so far, how many digits were
    read, and the rest of the text. *)
Fixpoint read_digits (l : list ascii) (acc : Z) (n : Z)
  : Z * Z * list ascii :=
  match l with
  | c :: l' =>
      if is_digit c then read_digits l' (10 * acc + digit_value c) (n + 1)
      else (acc, n, l)
  | [] => (acc, n, [])
  end.

Definition read_sign (l : list ascii) : bool * list ascii :=
  match l with
  | "-"%char :: l' => (true, l')
  | "+"%char :: l' => (false, l')
  | _ => (false, l)
  end.

(** The exponent part: nothing, or [e]/[E], an optional sign and at least
    one digit, up to the end of the text. *)
Definition read_exponent (l : list ascii) : option Z :=
  match l with
  | [] => Some 0
  | c :: l' =>
      if Ascii.eqb (lower c) "e"%char then
        let '(neg, l1) := read_sign l' in
        let '(x, n, rest) := read_digits l1 0 0 in
        match rest with
        | [] => if 0 <? n then Some (if neg then - x else x) else None
        | _ :: _ => None
        end
      else None
  end.

(** A decimal number: the digits as an integer [m] and the power of ten
    [e] it is scaled by. *)
Definition read_decimal (l : list ascii) : option (Z * Z) :=
  let '(i, ni, l1) := read_digits l 0 0 in
  let '(m, nf, l2) :=
    match l1 with
    | "."%char :: l1' =>
        let '(m, nf, l2) := read_digits l1' i 0 in (m, nf, l2)
    | _ => (i, 0, l1)
    end in
  if 0 <? ni + nf then
    match read_exponent l2 with
    | Some x => Some (m, x - nf)
    | None => None
    end
  else None.

(** [m * 10^e] rounded to the nearest binary64 number, ties to even. *)
Definition round_decimal (neg : bool) (m e : Z) : pyfloat :=
  match m with
  | Zpos p =>
      if 0 <=? e
      then binary_round prec emax neg (p * Z.to_pos (10 ^ e)) 0
      else
        let '(q, e', l) :=
          SFdiv_core_binary prec emax (Zpos p) 0 (10 ^ (- e)) 0 in
        binary_round_aux prec emax neg q e' l
  | _ => S754_zero neg
  end.

Definition float_of_chars (l : list ascii) : result pyfloat :=
  match drop_underscores None l with
  | None => Raise ValueError
  | Some l0 =>
      let '(neg, l1) := read_sign (strip l0) in
      let word := string_of_list_ascii (map lower l1) in
      if String.eqb word "inf" || String.eqb word "infinity"
      then Ok (S754_infinity neg)
      else if String.eqb word "nan" then Ok S754_nan
      else
        match read_decimal l1 with
        | Some (m, e) => Ok (round_decimal neg m e)
        | None => Raise ValueError
        end
  end.

Definition float (s : string) : result pyfloat :=
  match number_text s with
  | Some l => float_of_chars l
  | None => Raise ValueError
  end.

(** [int(s)] on text, base ten: white space stripped, underscores between
    digits dropped, an optional sign, then digits only. *)
Definition int_of_chars (l : list ascii) : result Z :=
  match drop_underscores None l with
  | None => Raise ValueError
  | Some l0 =>
      let '(neg, l1) := read_sign (strip l0) in
      let '(x, n, rest) := read_digits l1 0 0 in
      match rest with
      | [] => if 0 <? n then Ok (if neg then - x else x) else Raise ValueError
      | _ :: _ => Raise ValueError
      end
  end.

Definition int (s : string) : result Z :=
  match number_text s with
  | Some l => int_of_chars l
  | None => Raise ValueError
  end.

(** [str(n)] for an integer. *)
Definition str_of_int (n : Z) : string := NilZero.string_of_int (Z.to_int n).

(** [l[i]] on a list. *)
Definition item {A : Type} (l : list A) (i : nat) : result A :=
  match nth_error l i with
  | Some x => Ok x
  | None => Raise IndexError
  end.

(** [os.path.join(a, b)] on POSIX paths. *)
Definition path_join (a b : string) : string :=
  match b with
  | String "/"%char _ => b
  | _ =>
      match rev (list_ascii_of_string a) with
      | [] => b
      | "/"%char :: _ => a ++ b
      | _ => a ++ "/" ++ b
      end
  end.

End Py.

(** ** [datetime.date] *)

Module Datetime.
Import Py.

Record date : Type := mkdate { year : Z; month : Z; day : Z }.

Definition is_leap (y : Z) : bool :=
  (y mod 4 =? 0) && (negb (y mod 100 =? 0) || (y mod 400 =? 0)).

Definition days_in_month (y m : Z) : Z :=
  if m =? 2 then (if is_leap y then 29 else 28)
  else if (m =? 4) || (m =? 6) || (m =? 9) || (m =? 11) then 30
  else 31.

Definition MINYEAR : Z := 1.
Definition MAXYEAR : Z := 9999.

Definition valid_date (d : date) : bool :=
  (MINYEAR <=? year d) && (year d <=? MAXYEAR) &&
  (1 <=? month d) && (month d <=? 12) &&
  (1 <=? day d) && (day d <=? days_in_month (year d) (month d)).

(** The arguments of the constructor pass through a C [int]. *)
Definition fits_c_int (n : Z) : bool := (- 2 ^ 31 <=? n) && (n <? 2 ^ 31).

(** [datetime.date(y, m, d)] *)
Definition new_date (y m d : Z) : result date :=
  if fits_c_int y && fits_c_int m && fits_c_int d then
    if valid_date (mkdate y m d) then Ok (mkdate y m d) else Raise ValueError
  else Raise OverflowError.

(** [a <= b]: dates compare as the tuples (year, month, day). *)
Definition date_le (a b : date) : bool :=
  if year a =? year b then
    if month a =? month b then day a <=? day b else month a <? month b
  else year a <? year b.

Definition date_lt (a b : date) : bool :=
  if year a =? year b then
    if month a =? month b then day a <? day b else month a <? month b
  else year a <? year b.

(** [d + datetime.timedelta(1)]: the next calendar day; past 9999-12-31 the
    result is out of range. *)
Definition add_one_day (d : date) : result date :=
  if day d <? days_in_month (year d) (month d)
  then Ok (mkdate (year d) (month d) (day d + 1))
  else if month d <? 12 then Ok (mkdate (year d) (month d + 1) 1)
  else if year d <? MAXYEAR then Ok (mkdate (year d + 1) 1 1)
  else Raise OverflowError.

(** [str(d)]: ISO format, year on four digits, month and day on two. *)
Definition zero_pad (width : nat) (s : string) : string :=
  string_of_list_ascii
    (repeat "0"%char (width - String.length s)) ++ s.

Definition isoformat (d : date) : string :=
  zero_pad 4 (str_of_int (year d)) ++ "-" ++
  zero_pad 2 (str_of_int (month d)) ++ "-" ++
  zero_pad 2 (str_of_int (day d)).

End Datetime.

(** ** The parsed page (BeautifulSoup) *)

Module Bs4.

(** A node of the parsed tree: a piece of text or a tag with its class
    tokens and its children. *)
#[local] Unset Elimination Schemes.
Inductive node : Type :=
| NavigableString (s : string)
| Tag (name : string) (classes : list string) (contents : list node).
#[local] Set Elimination Schemes.

(** All nodes below [n], in document order. *)
Fixpoint descendants (n : node) : list node :=
  match n with
  | NavigableString _ => []
  | Tag _ _ cs => flat_map (fun c => c :: descendants c) cs
  end.

Definition is_tag (name : string) (n : node) : bool :=
  match n with
  | Tag nm _ _ => String.eqb nm name
  | NavigableString _ => false
  end.

Definition has_class (cls : string) (n : node) : bool :=
  match n with
  | Tag _ cl _ => existsb (String.eqb cls) cl
  | NavigableString _ => false
  end.

(** [n.findAll(name)] *)
Definition findAll (name : string) (n : node) : list node :=
  filter (is_tag name) (descendants n).

(** [n.find(name, {"class": cls})]: the first match, or None. *)
Definition find (name cls : string) (n : node) : option node :=
  List.find (fun x => is_tag name x && has_class cls x) (descendants n).

(** [n.string]: the text of a tag that has exactly one child, looked up
    through single-child tags; None for no child or several children. *)
Fixpoint get_string (n : node) : option string :=
  match n with
  | NavigableString s => Some s
  | Tag _ _ [c] => get_string c
  | Tag _ _ _ => None
  end.

End Bs4.

Import Py Datetime Bs4.

(** ** Values, the run's state and the monad *)

(** The Python values a CSV row can hold. *)
Inductive pyval : Type :=
| VNone
| VStr (s : string)
| VInt (n : Z)
| VFloat (f : pyfloat)
| VDate (d : date).

Definition row : Type := list pyval.

(** The output file: its path, the rows written so far, oldest first, and
    whether it has been closed. *)
Record csvfile : Type := mkfile
  { path : string; rows : list row; closed : bool }.

(** What a run has done so far: the lines printed, the seconds slept, the
    URLs requested (oldest first) and the output file once it is opened. *)
Record state : Type := mkstate
  { stdout : list string;
    slept : Z;
    requests : list string;
    sink : option csvfile }.

Definition start_state : state := mkstate [] 0 [] None.

(** What a run reads from outside: for each URL the parsed document that
    [BeautifulSoup(urlopen(url).read(), 'html.parser')] yields or the
    exception [urlopen] raises, and the text of the rounded elapsed time. *)
Record world : Type := mkworld
  { fetch : string -> result node;
    elapsed : string }.

(** A computation: from a state to an outcome and the state reached, or to
    nothing when the loop ran out of fuel.  A raised exception keeps the
    state: what was printed or written stays. *)
Definition M (A : Type) : Type := state -> option (result A * state).

Definition ret {A : Type} (a : A) : M A := fun st => Some (Ok a, st).

Definition raise {A : Type} (e : exn) : M A := fun st => Some (Raise e, st).

Definition out_of_fuel {A : Type} : M A := fun _ => None.

Definition bind {A B : Type} (c : M A) (k : A -> M B) : M B :=
  fun st =>
    match c st with
    | Some (Ok a, st') => k a st'
    | Some (Raise e, st') => Some (Raise e, st')
    | None => None
    end.

Definition lift {A : Type} (r : result A) : M A := fun st => Some (r, st).

Definition bind_result {A B : Type} (r : result A) (k : A -> result B)
  : result B :=
  match r with
  | Ok a => k a
  | Raise e => Raise e
  end.

Declare Scope py_scope.
Delimit Scope py_scope with py.
Notation "x <- c ;; k" := (bind c (fun x => k))
  (at level 61, c at next level, right associativity) : py_scope.
Notation "c ;; k" := (bind c (fun _ => k))
  (at level 61, right associativity) : py_scope.
Notation "'let?' x := r 'in' k" := (bind_result r (fun x => k))
  (at level 10, x name, r at level 100, k at level 200) : py_scope.
Local Open Scope py_scope.

(** [print(s)] *)
Definition print (s : string) : M unit :=
  fun st => Some (Ok tt, mkstate (stdout st ++ [s]) (slept st) (requests st) (sink st)).

(** [time.sleep(n)] *)
Definition sleep (n : Z) : M unit :=
  fun st => Some (Ok tt, mkstate (stdout st) (slept st + n) (requests st) (sink st)).

(** [BeautifulSoup(urllib.request.urlopen(url).read(), 'html.parser')] *)
Definition urlopen (w : world) (url : string) : M node :=
  fun st =>
    Some (fetch w url,
          mkstate (stdout st) (slept st) (requests st ++ [url]) (sink st)).

(** [writer.writerow(r)]: one more row in the open file. *)
Definition writerow (r : row) : M unit :=
  fun st =>
    Some (Ok tt,
          mkstate (stdout st) (slept st) (requests st)
            (option_map (fun f => mkfile (path f) (rows f ++ [r]) (closed f))
               (sink st))).

Definition open_w (p : string) (st : state) : state :=
  mkstate (stdout st) (slept st) (requests st) (Some (mkfile p [] false)).

Definition close (st : state) : state :=
  mkstate (stdout st) (slept st) (requests st)
    (option_map (fun f => mkfile (path f) (rows f) true) (sink st)).

(** [with open(p, 'w', ...) as f: body]: the file is created empty (the
    path is taken to be writable), and closed when the body is left,
    whether it returns or raises. *)
Definition with_open {A : Type} (p : string) (body : M A) : M A :=
  fun st =>
    match body (open_w p st) with
    | Some (r, st') => Some (r, close st')
    | None => None
    end.

(** [for x in l: body(x)] *)
Fixpoint for_each {A : Type} (l : list A) (body : A -> M unit) : M unit :=
  match l with
  | [] => ret tt
  | x :: l' => body x ;; for_each l' body
  end.

(** ** The script *)

(** [select_weather_observatory(block_no)]; the result None is [None]. *)
Definition select_weather_observatory (block_no : string)
  : M (option string) :=
  if len block_no =? 5 then ret (Some "s1")
  else if len block_no =? 4 then ret (Some "a1")
  else
    print "block_noが無効なため停止" ;;
    print "block_noを5桁か4桁で入力してください" ;;
    ret None.

(** [string_to_float(weather_data)] *)
Definition string_to_float (weather_data : string) : pyval :=
  match float weather_data with
  | Ok f => VFloat f
  | Raise _ => VInt 0
  end.

Definition opt_str (o : option string) : pyval :=
  match o with
  | Some s => VStr s
  | None => VNone
  end.

Definition facility_is (facility_type : option string) (s : string) : bool :=
  match facility_type with
  | Some t => String.eqb t s
  | None => false
  end.

(** One row of the table: [Some r] is the record appended, [None] is
    [break]; a row shorter than the cell asked for raises. *)
Definition hour_of_row (date : date) (col : nat) (tds : list node)
  : result (option row) :=
  let? cell := item tds col in
  match get_string cell with
  | None => Ok None
  | Some text =>
      let? label := item tds 0 in
      Ok (Some [VDate date; opt_str (get_string label); string_to_float text])
  end.

(** The [for tr in ...] loop of [scraping_day_per_hour]. *)
Fixpoint scan_rows (date : date) (facility_type : option string)
  (trs : list node) (data_list_per_hour : list row) : result (list row) :=
  match trs with
  | [] => Ok data_list_per_hour
  | tr :: trs' =>
      let tds := findAll "td" tr in
      if facility_is facility_type "s1" then
        let? r := hour_of_row date 3 tds in
        match r with
        | None => Ok data_list_per_hour
        | Some data_list =>
            scan_rows date facility_type trs' (data_list_per_hour ++ [data_list])
        end
      else if facility_is facility_type "a1" then
        let? r := hour_of_row date 1 tds in
        match r with
        | None => Ok data_list_per_hour
        | Some data_list =>
            scan_rows date facility_type trs' (data_list_per_hour ++ [data_list])
        end
      else scan_rows date facility_type trs' data_list_per_hour
  end.

(** The part of [scraping_day_per_hour] after the fetch. *)
Definition extract (soup : node) (date : date) (facility_type : option string)
  : result (list row) :=
  match find "table" "data2_s" soup with
  | None => Raise AttributeError
  | Some trs => scan_rows date facility_type (skipn 2 (findAll "tr" trs)) []
  end.

(** [scraping_day_per_hour(url, date, facility_type)] *)
Definition scraping_day_per_hour (w : world) (url : string) (date : date)
  (facility_type : option string) : M (list row) :=
  soup <- urlopen w url ;;
  lift (extract soup date facility_type).

(** [processing_time(start_time)]; the clock is read by the world. *)
Definition newline : string := String (ascii_of_nat 10) EmptyString.

Definition processing_time (w : world) : string :=
  " -合計処理時間" ++ elapsed w ++ "秒-" ++ newline.

(** The five entries of [user_input_tuple]. *)
Record user_input : Type := mkinput
  { output_dir : string;
    prec_no : string;
    block_no : string;
    start_input_list : list string;
    end_input_list : list string }.

(** [datetime.date(int(l[0]), int(l[1]), int(l[2]))] *)
Definition date_of_input (l : list string) : result date :=
  let? y := (let? s := item l 0 in int s) in
  let? m := (let? s := item l 1 in int s) in
  let? d := (let? s := item l 2 in int s) in
  new_date y m d.

(** The f-string of the page address; [None] is formatted as its name. *)
Definition format_facility (facility_type : option string) : string :=
  match facility_type with
  | Some s => s
  | None => "None"
  end.

Definition page_url (facility_type : option string) (prec_no block_no : string)
  (date : date) : string :=
  "https://www.data.jma.go.jp/obd/stats/etrn/view/hourly_" ++
  format_facility facility_type ++ ".php?" ++
  "prec_no=" ++ prec_no ++ "&block_no=" ++ block_no ++
  "&year=" ++ str_of_int (year date) ++
  "&month=" ++ str_of_int (month date) ++
  "&day=" ++ str_of_int (day date) ++ "&view=".

Definition fields : row := [VStr "年月日"; VStr "時間"; VStr "降水量"].

(** The [while date <= end_date] loop.  [fuel] bounds the number of
    iterations; the loop is out of fuel only when it would go on. *)
Fixpoint date_loop (fuel : nat) (w : world) (facility_type : option string)
  (prec_no block_no : string) (end_date date : date) : M unit :=
  if date_le date end_date then
    match fuel with
    | O => out_of_fuel
    | S fuel' =>
        sleep 1 ;;
        print (isoformat date) ;;
        let url := page_url facility_type prec_no block_no date in
        data_per_day <- scraping_day_per_hour w url date facility_type ;;
        for_each data_per_day writerow ;;
        date' <- lift (add_one_day date) ;;
        date_loop fuel' w facility_type prec_no block_no end_date date'
    end
  else ret tt.

(** A number that grows by at least one from a day to the next: the days
    counted with 31 days to every month. *)
Definition day_index (d : date) : Z := (year d * 12 + month d) * 31 + day d.

(** Fuel for the loop from [a] to [b]: no less than the days it visits. *)
Definition loop_fuel (a b : date) : nat :=
  Z.to_nat (day_index b - day_index a + 1).

(** [create_csv_hour(user_input_tuple)] *)
Definition create_csv_hour (w : world) (user_input_tuple : user_input)
  : M unit :=
  print "雨量データを取得中..." ;;
  let output_dir := output_dir user_input_tuple in
  let prec_no := prec_no user_input_tuple in
  let block_no := block_no user_input_tuple in
  facility_type <- select_weather_observatory block_no ;;
  let output_file := "weather_per_hour.csv" in
  let output_dir_name := path_join output_dir output_file in
  start_date <- lift (date_of_input (start_input_list user_input_tuple)) ;;
  end_date <- lift (date_of_input (end_input_list user_input_tuple)) ;;
  with_open output_dir_name
    (writerow fields ;;
     date_loop (loop_fuel start_date end_date) w facility_type prec_no
       block_no end_date start_date) ;;
  print (processing_time w) ;;
  print ">>完了<<".

(** ** Notions used to state the properties *)

(** The rows of the output file of a state; no file, no rows. *)
Definition sink_rows (st : state) : list row :=
  match sink st with
  | Some f => rows f
  | None => []
  end.

Definition sink_closed (st : state) : bool :=
  match sink st with
  | Some f => closed f
  | None => false
  end.

(** The days the loop visits: [n] consecutive days from [d], cut at
    [end_date] and at the end of the calendar. *)
Fixpoint days_from (n : nat) (end_date d : date) : list date :=
  match n with
  | O => []
  | S n' =>
      if date_le d end_date then
        d :: match add_one_day d with
             | Ok d' => days_from n' end_date d'
             | Raise _ => []
             end
      else []
  end.

Definition date_range (start_date end_date : date) : list date :=
  days_from (loop_fuel start_date end_date) end_date start_date.

(** What the Day Extractor returns for day [d] of a run. *)
Definition day_result (w : world) (facility_type : option string)
  (prec_no block_no : string) (d : date) : result (list row) :=
  let? soup := fetch w (page_url facility_type prec_no block_no d) in
  extract soup d facility_type.

Definition day_rows (w : world) (facility_type : option string)
  (prec_no block_no : string) (d : date) : list row :=
  match day_result w facility_type prec_no block_no d with
  | Ok l => l
  | Raise _ => []
  end.

(** The third field of a record, its precipitation. *)
Definition precipitation (r : row) : pyval := nth 2 r VNone.

Definition is_finite_number (v : pyval) : bool :=
  match v with
  | VInt _ => true
  | VFloat f => is_finite f
  | _ => false
  end.

(** The layout the classifier settles on, and the lines it prints. *)
Definition facility_of (block_no : string) : option string :=
  if len block_no =? 5 then Some "s1"
  else if len block_no =? 4 then Some "a1"
  else None.

Definition classifier_lines (block_no : string) : list string :=
  match facility_of block_no with
  | Some _ => []
  | None => ["block_noが無効なため停止"; "block_noを5桁か4桁で入力してください"]
  end.

(** The column of the precipitation cell for a layout. *)
Definition target_col (facility_type : option string) : option nat :=
  if facility_is facility_type "s1" then Some 3%nat
  else if facility_is facility_type "a1" then Some 1%nat
  else None.

(** What [tds[col].string] is for a row: [None] when the row has no such
    cell, [Some None] when the cell has no single text, [Some (Some s)]
    when its text is [s]. *)
Definition cell_string (col : nat) (tr : node) : option (option string) :=
  option_map get_string (nth_error (findAll "td" tr) col).

(** The days a run visits, up to and including the first day whose
    extraction raises. *)
Fixpoint visited (day_ok : date -> bool) (ds : list date) : list date :=
  match ds with
  | [] => []
  | d :: ds' => if day_ok d then d :: visited day_ok ds' else [d]
  end.

(** The state after [l] has been written row by row. *)
Definition put_rows (l : list row) (st : state) : state :=
  mkstate (stdout st) (slept st) (requests st)
    (option_map (fun f => mkfile (path f) (rows f ++ l) (closed f)) (sink st)).

(** The state after one turn of the date loop for day [d]: slept, printed
    the date, requested the page, written the day's rows. *)
Definition after_request (w : world) (facility_type : option string)
  (prec_no block_no : string) (d : date) (st : state) : state :=
  mkstate (stdout st ++ [isoformat d]) (slept st + 1)
    (requests st ++ [page_url facility_type prec_no block_no d]) (sink st).

Definition after_day (w : world) (facility_type : option string)
  (prec_no block_no : string) (d : date) (st : state) : state :=
  put_rows (day_rows w facility_type prec_no block_no d)
    (after_request w facility_type prec_no block_no d st).

Definition after_days (w : world) (facility_type : option string)
  (prec_no block_no : string) (ds : list date) (st : state) : state :=
  fold_left (fun st d => after_day w facility_type prec_no block_no d st) ds st.

Definition day_ok (w : world) (facility_type : option string)
  (prec_no block_no : string) (d : date) : bool :=
  match day_result w facility_type prec_no block_no d with
  | Ok _ => true
  | Raise _ => false
  end.

(** How the date loop ends over the days [ds]: with the first exception
    of a day's extraction or of the step to the next day, or normally. *)
Fixpoint loop_result (w : world) (facility_type : option string)
  (prec_no block_no : string) (ds : list date) : result unit :=
  match ds with
  | [] => Ok tt
  | d :: ds' =>
      match day_result w facility_type prec_no block_no d with
      | Raise e => Raise e
      | Ok _ =>
          match add_one_day d with
          | Raise e => Raise e
          | Ok _ => loop_result w facility_type prec_no block_no ds'
          end
      end
  end.

Definition date_ltP (a b : date) : Prop := date_lt a b = true.

Definition last_day : date := mkdate 9999 12 31.

(** The state when the date loop is entered: the banner and the lines of
    the classifier printed, the file opened and the header written. *)
Definition opened (user_input_tuple : user_input) : state :=
  mkstate ("雨量データを取得中..." :: classifier_lines (block_no user_input_tuple))
    0 []
    (Some (mkfile (path_join (output_dir user_input_tuple) "weather_per_hour.csv")
             [fields] false)).

(** The two lines printed when the loop was left normally. *)
Definition finished (w : world) (st : state) : state :=
  mkstate (stdout st ++ [processing_time w; ">>完了<<"]) (slept st)
    (requests st) (sink st).

(** The record a row yields when its target cell has a text. *)
Definition record_of (date : date) (col : nat) (tr : node) : row :=
  [VDate date;
   match nth_error (findAll "td" tr) 0 with
   | Some label => opt_str (get_string label)
   | None => VNone
   end;
   match cell_string col tr with
   | Some (Some text) => string_to_float text
   | _ => VNone
   end].

(** ** Sample pages and worlds *)

Definition td (s : string) : node := Tag "td" [] [NavigableString s].

Definition empty_td : node := Tag "td" [] [].

Definition tr (cells : list node) : node := Tag "tr" [] cells.

Definition header_row : node := tr [Tag "th" [] [NavigableString "時"]].

(** A document whose data table has the two header rows and then [trs]. *)
Definition page_of (trs : list node) : node :=
  Tag "[document]" []
    [Tag "html" []
       [Tag "body" []
          [Tag "table" ["data2_s"] (header_row :: header_row :: trs)]]].

(** A document without the data table. *)
Definition page_without_table : node :=
  Tag "[document]" [] [Tag "html" [] [Tag "body" [] [Tag "p" [] []]]].

(** A row of the five-digit layout: hour, two pressures, precipitation. *)
Definition s1_row (hour : string) (cell : node) : node :=
  tr [td hour; td "1013.2"; td "1015.0"; cell].

(** A row of the four-digit layout: hour, precipitation. *)
Definition a1_row (hour : string) (cell : node) : node :=
  tr [td hour; cell].

(** The world that serves the same document at every address. *)
Definition world_of (page : node) : world := mkworld (fun _ => Ok page) "0.0".

(** The world where nothing can be fetched. *)
Definition offline : world := mkworld (fun _ => Raise URLError) "0.0".

Definition page_empty_cell : node :=
  page_of [s1_row "1" empty_td; s1_row "2" (td "0.5")].

Definition page_short_row : node :=
  page_of [tr [td "1"; td "1013.2"]; s1_row "2" (td "0.5")].

Definition page_stop : node :=
  page_of [s1_row "1" (td "0.5"); s1_row "2" (td "--");
           s1_row "3" empty_td; s1_row "4" (td "1.0")].

Definition page_nan : node := page_of [s1_row "1" (td "nan")].

Definition page_25 : node := page_of (repeat (a1_row "1" (td "0.0")) 25).

Definition day_1 : date := mkdate 2020 1 7.

Definition some_url : string := page_url (Some "s1") "44" "47662" day_1.

(** 12.3 is not a binary64 number; this is the nearest one,
    [6924284427082138 * 2^-49]. *)
Definition float_12_3 : pyfloat := S754_finite false 6924284427082138 (-49).

(** The multiplication sign, U+00D7, in UTF-8. *)
Definition times_sign : string := "×".

(** Sample inputs: three days, one day, a reversed range, a station code
    of three characters. *)
Definition input_3days : user_input :=
  mkinput "out" "44" "47662" ["2020"; "1"; "7"] ["2020"; "1"; "9"].

Definition input_1day : user_input :=
  mkinput "out" "44" "47662" ["2020"; "1"; "7"] ["2020"; "1"; "7"].

Definition input_reversed : user_input :=
  mkinput "out" "44" "47662" ["2020"; "1"; "9"] ["2020"; "1"; "7"].

Definition input_bad_station : user_input :=
  mkinput "out" "44" "123" ["2020"; "1"; "7"] ["2020"; "1"; "9"].

Definition day_2 : date := mkdate 2020 1 8.

Definition day_3 : date := mkdate 2020 1 9.

(** The world where the page of [d] cannot be fetched and every other
    page is [page_stop]. *)
Definition world_failing_on (d : date) : world :=
  mkworld
    (fun url =>
       if String.eqb url (page_url (Some "s1") "44" "47662" d)
       then Raise URLError else Ok page_stop)
    "0.0".


(** ** The terminal: [input], [user_input] and [main] *)

(** [s.split(sep)] for a separator of one character: the pieces between
    the separators, empty pieces included. *)
Fixpoint split (s : string) (sep : ascii) : list string :=
  match s with
  | EmptyString => [""]
  | String c s' =>
      if Ascii.eqb c sep then "" :: split s' sep
      else
        match split s' sep with
        | piece :: pieces => String c piece :: pieces
        | [] => [String c ""]
        end
  end.

(** [sep.join(l)] *)
Fixpoint join (sep : string) (l : list string) : string :=
  match l with
  | [] => ""
  | [x] => x
  | x :: l' => x ++ sep ++ join sep l'
  end.

(** Reading the terminal can fail as well: [input] at the end of the
    input raises [EOFError]. *)
Inductive io_exn : Type :=
| EOFError
| Script (e : exn).

Inductive outcome (A : Type) : Type :=
| Returned (a : A)
| Uncaught (e : io_exn).
Arguments Returned {A} a.
Arguments Uncaught {A} e.

(** The lines still to be read from standard input, the prompts shown by
    [input] so far (oldest first), and the state of the run. *)
Record terminal : Type := mkterminal
  { stdin : list string;
    prompts : list string;
    script : state }.

Definition IO (A : Type) : Type := terminal -> option (outcome A * terminal).

Definition io_ret {A : Type} (a : A) : IO A := fun t => Some (Returned a, t).

Definition io_bind {A B : Type} (c : IO A) (k : A -> IO B) : IO B :=
  fun t =>
    match c t with
    | Some (Returned a, t') => k a t'
    | Some (Uncaught e, t') => Some (Uncaught e, t')
    | None => None
    end.

(** A computation of the script, run at the terminal. *)
Definition run_script {A : Type} (c : M A) : IO A :=
  fun t =>
    match c (script t) with
    | Some (Ok a, st) => Some (Returned a, mkterminal (stdin t) (prompts t) st)
    | Some (Raise e, st) =>
        Some (Uncaught (Script e), mkterminal (stdin t) (prompts t) st)
    | None => None
    end.

(** [input(prompt)]: shows the prompt and reads one line. *)
Definition input (prompt : string) : IO string :=
  fun t =>
    match stdin t with
    | line :: rest =>
        Some (Returned line,
              mkterminal rest (prompts t ++ [prompt]) (script t))
    | [] =>
        Some (Uncaught EOFError,
              mkterminal [] (prompts t ++ [prompt]) (script t))
    end.

Declare Scope io_scope.
Delimit Scope io_scope with io.
Notation "x <- c ;; k" := (io_bind c (fun x => k))
  (at level 61, c at next level, right associativity) : io_scope.
Notation "c ;; k" := (io_bind c (fun _ => k))
  (at level 61, right associativity) : io_scope.

Definition start_terminal (lines : list string) : terminal :=
  mkterminal lines [] start_state.

Module Console.
Local Open Scope io_scope.

(** [user_input()] *)
Definition user_input : IO user_input :=
  run_script (print ("■■■ 気象庁の雨量データ取得ツール ■■■" ++ newline)) ;;
  run_script (print "◆出来る事") ;;
  run_script (print "  気象庁の1時間の雨量データを指定した期間取得") ;;
  run_script (print ("   ※サイトor回線が重い場合は取得に時間がかかります" ++ newline)) ;;
  run_script (print "◆事前準備") ;;
  run_script (print "下記サイトで観測所を選択し、URLに表示されるprec_noとblock_noを確認してください") ;;
  run_script
    (print ("https://www.data.jma.go.jp/obd/stats/etrn/index.php?prec_no=&block_no=&year=&month=&day=&view="
            ++ newline ++ newline)) ;;
  run_script (print ("----入力項目----" ++ newline)) ;;
  output_dir <- input "CSVの出力先を入力してください・・・ " ;;
  prec_no <- input "prec_noを入力してください - 入力例 [44]・・・ " ;;
  block_no <- input "block_noを入力してください - 入力例 [47662]・・・ " ;;
  start_input <- input "取得開始日を入力してください - 入力例 [2020/1/7]・・・ " ;;
  end_input <- input "取得終了日を入力してください - 入力例 [2020/1/9]・・・ " ;;
  run_script
    (print (newline ++ "prec_no=" ++ prec_no ++ ", " ++ "block_no=" ++ block_no ++
            ", " ++ start_input ++ " ～ " ++ end_input ++ "の" ++
            "雨量データを取得しますがよろしいでしょうか？")) ;;
  input ("はいの場合、何かキーを押してください..." ++ newline) ;;
  run_script (print "雨量データの取得中...") ;;
  run_script
    (print " ※気象庁サイトへの負荷軽減のため、データを1日取得ごとに1秒停止してます") ;;
  let start_input_list := split start_input "/" in
  let end_input_list := split end_input "/" in
  io_ret (mkinput output_dir prec_no block_no start_input_list end_input_list).

(** [main()] *)
Definition main (w : world) : IO unit :=
  user_input_tuple <- user_input ;;
  run_script (create_csv_hour w user_input_tuple) ;;
  input "何かをキーを押したら終了いたします..." ;;
  io_ret tt.

End Console.

(** ** Notions for the further properties *)

(** The characters a number can be written with: digits, white space,
    sign, point, underscore, the exponent letter and the letters of
    [inf], [infinity] and [nan], in either case. *)
Definition number_char (c : ascii) : bool :=
  is_digit c || is_space c ||
  existsb (Ascii.eqb c) ["+"; "-"; "."; "_"]%char ||
  existsb (Ascii.eqb (lower c)) ["e"; "i"; "n"; "f"; "t"; "y"; "a"]%char.

(** The state [st] reached after [pre]: its lines, seconds and requests
    come after those of [pre]; the file is that of [st]. *)
Definition after_state (pre st : state) : state :=
  mkstate (stdout pre ++ stdout st) (slept pre + slept st)
    (requests pre ++ requests st) (sink st).

Definition after_outcome {A : Type} (pre : state) (o : option (result A * state))
  : option (result A * state) :=
  match o with
  | Some (r, st) => Some (r, after_state pre st)
  | None => None
  end.

(** A computation that only appends to what was printed, slept and
    requested before, and does not look at it. *)
Definition appends {A : Type} (c : M A) : Prop :=
  forall pre st, c (after_state pre st) = after_outcome pre (c st).

(** No character of [s] is the separator. *)
Definition no_sep (sep : ascii) (s : string) : Prop :=
  ~ In sep (list_ascii_of_string s).

(** The six prompts of [user_input], in the order they are shown. *)
Definition asked : list string :=
  ["CSVの出力先を入力してください・・・ ";
   "prec_noを入力してください - 入力例 [44]・・・ ";
   "block_noを入力してください - 入力例 [47662]・・・ ";
   "取得開始日を入力してください - 入力例 [2020/1/7]・・・ ";
   "取得終了日を入力してください - 入力例 [2020/1/9]・・・ ";
   ("はいの場合、何かキーを押してください..." ++ newline)%string].

(** Two worlds that give the same result for every day of [ds]. *)
Definition same_days (w1 w2 : world) (ft : option string) (pn bn : string)
  (ds : list date) : Prop :=
  forall d, In d ds ->
    day_result w1 ft pn bn d = day_result w2 ft pn bn d.

(** The data table of [page_of trs]. *)
Definition table_of (trs : list node) : node :=
  Tag "table" ["data2_s"] (header_row :: header_row :: trs).

Definition page_two_rows : node :=
  page_of [s1_row "1" (td "0.5"); s1_row "2" (td "--")].

(** A start date that is no day of the calendar. *)
Definition input_bad_date : user_input :=
  mkinput "out" "44" "47662" ["2020"; "2"; "30"] ["2020"; "3"; "1"].

(** The lines typed at the terminal for [input_3days], with an answer to
    each of the two last prompts. *)
Definition typed_3days : list string :=
  ["out"; "44"; "47662"; "2020/1/7"; "2020/1/9"; "no"; ""].

(** ** The calendar *)

Ltac zbool :=
  repeat match goal with
    | H : context [(?a <=? ?b)] |- _ => destruct (Z.leb_spec a b)
    | H : context [(?a <? ?b)] |- _ => destruct (Z.ltb_spec a b)
    | H : context [(?a =? ?b)] |- _ => destruct (Z.eqb_spec a b)
    | |- context [(?a <=? ?b)] => destruct (Z.leb_spec a b)
    | |- context [(?a <? ?b)] => destruct (Z.ltb_spec a b)
    | |- context [(?a =? ?b)] => destruct (Z.eqb_spec a b)
    end.

Lemma days_in_month_bounds (y m : Z) : 28 <= days_in_month y m <= 31.
Proof.
  unfold days_in_month.
  destruct (m =? 2); [destruct (is_leap y); lia|].
  destruct ((m =? 4) || (m =? 6) || (m =? 9) || (m =? 11)); lia.
Qed.

Lemma valid_date_bounds (d : date) :
  valid_date d = true ->
  1 <= year d <= 9999 /\ 1 <= month d <= 12 /\
  1 <= day d <= days_in_month (year d) (month d).
Proof.
  unfold valid_date, MINYEAR, MAXYEAR; intros H.
  repeat (apply andb_prop in H; destruct H as [H ?]).
  zbool; try discriminate; lia.
Qed.

Lemma valid_date_intro (d : date) :
  1 <= year d <= 9999 -> 1 <= month d <= 12 ->
  1 <= day d <= days_in_month (year d) (month d) ->
  valid_date d = true.
Proof.
  unfold valid_date, MINYEAR, MAXYEAR; intros.
  repeat (apply andb_true_intro; split); zbool; try reflexivity; lia.
Qed.

Lemma new_date_valid (y m d : Z) (x : date) :
  new_date y m d = Ok x -> valid_date x = true.
Proof.
  unfold new_date; intros H.
  destruct (fits_c_int y && fits_c_int m && fits_c_int d); [|discriminate].
  destruct (valid_date (mkdate y m d)) eqn:V; [|discriminate].
  now inversion H; subst.
Qed.

Lemma date_of_input_valid (l : list string) (d : date) :
  date_of_input l = Ok d -> valid_date d = true.
Proof.
  unfold date_of_input, bind_result; intros H.
  repeat match type of H with
    | match ?r with Ok _ => _ | Raise _ => _ end = _ =>
        destruct r; try discriminate
    end.
  eauto using new_date_valid.
Qed.

(** The next day of a valid date is a valid date, and a later one. *)
Lemma add_one_day_valid (d d' : date) :
  valid_date d = true -> add_one_day d = Ok d' ->
  valid_date d' = true /\ date_lt d d' = true /\
  day_index d < day_index d'.
Proof.
  intros V H. apply valid_date_bounds in V.
  pose proof (days_in_month_bounds (year d) (month d)) as B.
  pose proof (days_in_month_bounds (year d) (month d + 1)) as B1.
  pose proof (days_in_month_bounds (year d + 1) 1) as B2.
  unfold add_one_day, MAXYEAR in H.
  destruct (Z.ltb_spec (day d) (days_in_month (year d) (month d)));
    [|destruct (Z.ltb_spec (month d) 12);
      [|destruct (Z.ltb_spec (year d) 9999); [|discriminate]]];
    inversion H; subst d'; clear H;
    (split; [apply valid_date_intro; cbn [year month day]; lia|]);
    unfold date_lt, day_index; cbn [year month day];
    (split; [zbool; try reflexivity; lia | lia]).
Qed.

Lemma date_le_index (a b : date) :
  valid_date a = true -> valid_date b = true ->
  (date_le a b = true <-> day_index a <= day_index b).
Proof.
  intros Va Vb.
  apply valid_date_bounds in Va, Vb.
  pose proof (days_in_month_bounds (year a) (month a)).
  pose proof (days_in_month_bounds (year b) (month b)).
  unfold date_le, day_index; zbool; split; intros; try discriminate;
    try reflexivity; lia.
Qed.

Lemma date_lt_index (a b : date) :
  valid_date a = true -> valid_date b = true ->
  (date_lt a b = true <-> day_index a < day_index b).
Proof.
  intros Va Vb.
  apply valid_date_bounds in Va, Vb.
  pose proof (days_in_month_bounds (year a) (month a)).
  pose proof (days_in_month_bounds (year b) (month b)).
  unfold date_lt, day_index; zbool; split; intros; try discriminate;
    try reflexivity; lia.
Qed.

Lemma date_le_refl (a : date) : date_le a a = true.
Proof. unfold date_le; zbool; try reflexivity; lia. Qed.

Lemma date_le_lt (a b : date) : date_le a b = negb (date_lt b a).
Proof. unfold date_le, date_lt; zbool; try reflexivity; lia. Qed.

Lemma date_index_inj (a b : date) :
  valid_date a = true -> valid_date b = true ->
  day_index a = day_index b -> a = b.
Proof.
  intros Va Vb.
  apply valid_date_bounds in Va, Vb.
  pose proof (days_in_month_bounds (year a) (month a)).
  pose proof (days_in_month_bounds (year b) (month b)).
  destruct a as [ya ma da], b as [yb mb db]; unfold day_index;
    cbn [year month day] in *; intros E.
  assert (ya = yb) by lia. assert (ma = mb) by lia. assert (da = db) by lia.
  congruence.
Qed.

Lemma date_lt_cases (a b : date) :
  date_lt a b = true ->
  year a < year b \/
  (year a = year b /\ month a < month b) \/
  (year a = year b /\ month a = month b /\ day a < day b).
Proof. unfold date_lt; zbool; intros; try discriminate; lia. Qed.

(** No valid date lies strictly between a date and its next day. *)
Lemma add_one_day_next (a b : date) :
  valid_date a = true -> valid_date b = true -> date_lt a b = true ->
  exists a', add_one_day a = Ok a' /\ date_le a' b = true.
Proof.
  intros Va Vb L.
  apply valid_date_bounds in Va, Vb. apply date_lt_cases in L.
  assert (D : year a = year b -> month a = month b ->
              day b <= days_in_month (year a) (month a)).
  { intros Ey Em. rewrite Ey, Em. lia. }
  unfold add_one_day, MAXYEAR.
  destruct (Z.ltb_spec (day a) (days_in_month (year a) (month a)));
    [|destruct (Z.ltb_spec (month a) 12);
      [|destruct (Z.ltb_spec (year a) 9999)]].
  - eexists; split; [reflexivity|].
    unfold date_le; cbn [year month day]; zbool; try reflexivity; lia.
  - eexists; split; [reflexivity|].
    unfold date_le; cbn [year month day]; zbool; try reflexivity; lia.
  - eexists; split; [reflexivity|].
    unfold date_le; cbn [year month day]; zbool; try reflexivity; lia.
  - exfalso. lia.
Qed.

(** Only the last day of the calendar has no next day. *)
Lemma add_one_day_raises (d : date) (e : exn) :
  valid_date d = true -> add_one_day d = Raise e ->
  d = last_day /\ e = OverflowError.
Proof.
  intros V H. apply valid_date_bounds in V.
  unfold add_one_day, MAXYEAR in H.
  destruct (Z.ltb_spec (day d) (days_in_month (year d) (month d)));
    [discriminate|].
  destruct (Z.ltb_spec (month d) 12); [discriminate|].
  destruct (Z.ltb_spec (year d) 9999); [discriminate|].
  inversion H; split; [|reflexivity].
  assert (M : month d = 12) by lia.
  destruct d as [y m dd]; cbn [year month day] in *; subst m.
  unfold days_in_month in *; cbn in *.
  unfold last_day; f_equal; lia.
Qed.

(** ** The days of a range *)

Lemma days_from_lower (n : nat) (e d x : date) :
  valid_date d = true -> In x (days_from n e d) ->
  valid_date x = true /\ day_index d <= day_index x /\ date_le x e = true.
Proof.
  revert d; induction n as [|n IH]; intros d V HI; cbn in HI; [easy|].
  destruct (date_le d e) eqn:L; [|easy].
  destruct HI as [<-|HI]; [repeat split; auto; lia|].
  destruct (add_one_day d) as [d'|] eqn:A; [|easy].
  destruct (add_one_day_valid d d' V A) as (V' & _ & I).
  destruct (IH d' V' HI) as (? & ? & ?). repeat split; auto; lia.
Qed.

Lemma days_from_sorted (n : nat) (e d : date) :
  valid_date d = true -> StronglySorted date_ltP (days_from n e d).
Proof.
  revert d; induction n as [|n IH]; intros d V; cbn; [constructor|].
  destruct (date_le d e); [|constructor].
  destruct (add_one_day d) as [d'|] eqn:A; [|repeat constructor].
  destruct (add_one_day_valid d d' V A) as (V' & _ & I).
  constructor; [auto|].
  apply Forall_forall; intros x HI.
  destruct (days_from_lower n e d' x V' HI) as (Vx & Ix & _).
  apply date_lt_index; auto; lia.
Qed.

(** With fuel enough, the days visited are exactly the valid dates from
    [d] to [e]. *)
Lemma days_from_In (n : nat) (e d x : date) :
  valid_date d = true -> valid_date e = true ->
  day_index e - day_index d + 1 <= Z.of_nat n ->
  (In x (days_from n e d) <->
   valid_date x = true /\ date_le d x = true /\ date_le x e = true).
Proof.
  intros V Ve; revert d V; induction n as [|n IH]; intros d V F.
  - cbn; split; [easy|]. intros (Vx & L1 & L2).
    apply date_le_index in L1, L2; auto; lia.
  - cbn [days_from]. destruct (date_le d e) eqn:L.
    + assert (Ld : day_index d <= day_index e) by (apply date_le_index; auto).
      split.
      * intros [<-|HI]; [auto using date_le_refl|].
        destruct (add_one_day d) as [d'|] eqn:A; [|easy].
        destruct (add_one_day_valid d d' V A) as (V' & _ & I).
        apply IH in HI; auto; [|lia].
        destruct HI as (Vx & L1 & L2). repeat split; auto.
        apply date_le_index in L1; auto. apply date_le_index; auto; lia.
      * intros (Vx & L1 & L2).
        destruct (Z.eq_dec (day_index d) (day_index x)) as [E|NE];
          [left; now apply date_index_inj|right].
        assert (Lt : date_lt d x = true).
        { apply date_lt_index; auto. apply date_le_index in L1; auto; lia. }
        destruct (add_one_day_next d x V Vx Lt) as (d' & A & L').
        rewrite A.
        destruct (add_one_day_valid d d' V A) as (V' & _ & I).
        apply IH; auto; lia.
    + split; [easy|]. intros (Vx & L1 & L2).
      apply date_le_index in L1, L2; auto.
      assert (date_le d e = true) by (apply date_le_index; auto; lia).
      congruence.
Qed.

Lemma loop_fuel_enough (a b : date) :
  day_index b - day_index a + 1 <= Z.of_nat (loop_fuel a b).
Proof. unfold loop_fuel; lia. Qed.

Lemma date_range_In (a b x : date) :
  valid_date a = true -> valid_date b = true ->
  (In x (date_range a b) <->
   valid_date x = true /\ date_le a x = true /\ date_le x b = true).
Proof.
  intros; apply days_from_In; auto using loop_fuel_enough.
Qed.

Lemma date_range_single (a : date) : date_range a a = [a].
Proof.
  unfold date_range, loop_fuel.
  replace (day_index a - day_index a + 1) with 1 by lia.
  change (Z.to_nat 1) with 1%nat. cbn [days_from].
  rewrite date_le_refl. now destruct (add_one_day a).
Qed.

Lemma date_range_reversed (a b : date) :
  date_lt b a = true -> date_range a b = [].
Proof.
  intros L. unfold date_range.
  destruct (loop_fuel a b); cbn [days_from]; [reflexivity|].
  now rewrite date_le_lt, L.
Qed.

(** ** The date loop and the run *)

Local Open Scope list_scope.

Lemma put_rows_nil (st : state) : put_rows [] st = st.
Proof.
  destruct st as [o s r [[p l c]|]]; unfold put_rows; cbn;
    now rewrite ?app_nil_r.
Qed.

Lemma put_rows_app (l1 l2 : list row) (st : state) :
  put_rows l2 (put_rows l1 st) = put_rows (l1 ++ l2) st.
Proof.
  destruct st as [o s r [[p l c]|]]; unfold put_rows; cbn;
    now rewrite ?app_assoc.
Qed.

Lemma for_each_writerow (l : list row) (st : state) :
  for_each l writerow st = Some (Ok tt, put_rows l st).
Proof.
  revert st; induction l as [|r l IH]; intros st; cbn [for_each].
  - unfold ret. now rewrite put_rows_nil.
  - unfold bind. change (writerow r st) with (Some (Ok tt, put_rows [r] st)).
    cbv beta iota. rewrite IH. now rewrite put_rows_app.
Qed.

Lemma scraping_run (w : world) (url : string) (d : date)
  (ft : option string) (st : state) :
  scraping_day_per_hour w url d ft st =
  Some (bind_result (fetch w url) (fun soup => extract soup d ft),
        mkstate (stdout st) (slept st) (requests st ++ [url]) (sink st)).
Proof.
  unfold scraping_day_per_hour, bind, urlopen, lift, bind_result.
  now destruct (fetch w url).
Qed.

Section Loop.
Variables (w : world) (ft : option string) (pn bn : string) (e : date).

Lemma after_day_raise (d : date) (x : exn) (st : state) :
  day_result w ft pn bn d = Raise x ->
  after_day w ft pn bn d st = after_request w ft pn bn d st.
Proof.
  intros H; unfold after_day, day_rows; rewrite H. apply put_rows_nil.
Qed.

Lemma after_days_cons (d : date) (ds : list date) (st : state) :
  after_days w ft pn bn (d :: ds) st =
  after_days w ft pn bn ds (after_day w ft pn bn d st).
Proof. reflexivity. Qed.

Lemma date_loop_spec (fuel : nat) (d : date) (st : state) :
  valid_date d = true -> valid_date e = true ->
  day_index e - day_index d + 1 <= Z.of_nat fuel ->
  date_loop fuel w ft pn bn e d st =
  Some (loop_result w ft pn bn (days_from fuel e d),
        after_days w ft pn bn
          (visited (day_ok w ft pn bn) (days_from fuel e d)) st).
Proof.
  intros V Ve; revert d st V; induction fuel as [|fuel IH]; intros d st V F.
  - cbn [date_loop days_from]. destruct (date_le d e) eqn:L.
    + apply date_le_index in L; auto; lia.
    + reflexivity.
  - cbn [date_loop days_from]. destruct (date_le d e) eqn:L; [|reflexivity].
    cbn [visited loop_result]. unfold day_ok at 1.
    cbv beta iota delta [bind sleep print].
    cbn [stdout slept requests sink].
    rewrite scraping_run. cbn [stdout slept requests sink].
    fold (day_result w ft pn bn d).
    fold (after_request w ft pn bn d st).
    destruct (day_result w ft pn bn d) as [l|x] eqn:DR.
    + rewrite for_each_writerow.
      replace (put_rows l (after_request w ft pn bn d st))
        with (after_day w ft pn bn d st)
        by (unfold after_day, day_rows; now rewrite DR).
      unfold lift.
      destruct (add_one_day d) as [d'|x] eqn:A.
      * destruct (add_one_day_valid d d' V A) as (V' & _ & I).
        rewrite IH by (auto; lia). now rewrite after_days_cons.
      * reflexivity.
    + unfold after_days; cbn [fold_left].
      now rewrite (after_day_raise d x).
Qed.
End Loop.

Lemma select_weather_observatory_run (bn : string) (st : state) :
  select_weather_observatory bn st =
  Some (Ok (facility_of bn),
        mkstate (stdout st ++ classifier_lines bn) (slept st) (requests st)
          (sink st)).
Proof.
  unfold select_weather_observatory, facility_of, classifier_lines, facility_of.
  destruct (len bn =? 5); [|destruct (len bn =? 4)];
    unfold ret, bind, print; cbn [stdout slept requests sink];
    rewrite <- ?app_assoc, ?app_nil_r; now destruct st.
Qed.

Section Fields.
Variables (w : world) (ft : option string) (pn bn : string).

Lemma after_days_stdout (ds : list date) (st : state) :
  stdout (after_days w ft pn bn ds st) = stdout st ++ map isoformat ds.
Proof.
  revert st; induction ds as [|d ds IH]; intros st; cbn [map].
  - cbn. now rewrite app_nil_r.
  - rewrite after_days_cons, IH. cbn. now rewrite <- app_assoc.
Qed.

Lemma after_days_requests (ds : list date) (st : state) :
  requests (after_days w ft pn bn ds st) =
  requests st ++ map (page_url ft pn bn) ds.
Proof.
  revert st; induction ds as [|d ds IH]; intros st; cbn [map].
  - cbn. now rewrite app_nil_r.
  - rewrite after_days_cons, IH. cbn. now rewrite <- app_assoc.
Qed.

Lemma after_days_sink (ds : list date) (st : state) :
  sink (after_days w ft pn bn ds st) =
  option_map
    (fun f => mkfile (path f)
                (rows f ++ flat_map (day_rows w ft pn bn) ds) (closed f))
    (sink st).
Proof.
  revert st; induction ds as [|d ds IH]; intros st; cbn [flat_map].
  - cbn. destruct (sink st) as [[p l c]|]; cbn; now rewrite ?app_nil_r.
  - rewrite after_days_cons, IH. cbn.
    destruct (sink st) as [[p l c]|]; cbn; now rewrite ?app_assoc.
Qed.
End Fields.

Lemma create_csv_hour_run (w : world) (inp : user_input) (s e : date) :
  date_of_input (start_input_list inp) = Ok s ->
  date_of_input (end_input_list inp) = Ok e ->
  let ft := facility_of (block_no inp) in
  let ds := date_range s e in
  let st := close (after_days w ft (prec_no inp) (block_no inp)
                     (visited (day_ok w ft (prec_no inp) (block_no inp)) ds)
                     (opened inp)) in
  create_csv_hour w inp start_state =
  Some match loop_result w ft (prec_no inp) (block_no inp) ds with
       | Ok _ => (Ok tt, finished w st)
       | Raise x => (Raise x, st)
       end.
Proof.
  intros Hs He ft ds st.
  unfold create_csv_hour.
  unfold bind at 1. unfold print at 1. cbv beta iota.
  unfold bind at 1. rewrite select_weather_observatory_run. cbv beta iota.
  rewrite Hs, He. unfold bind at 1. unfold lift at 1. cbv beta iota.
  unfold bind at 1. unfold lift at 1. cbv beta iota.
  unfold bind at 1. unfold with_open.
  unfold bind at 1. unfold writerow at 1. cbv beta iota.
  rewrite date_loop_spec; eauto using date_of_input_valid, loop_fuel_enough.
  fold ft. fold (date_range s e). fold ds.
  unfold start_state.
  cbn [stdout slept requests sink open_w option_map path rows closed app].
  fold (opened inp). fold st.
  destruct (loop_result w ft (prec_no inp) (block_no inp) ds); [|reflexivity].
  unfold bind, print, finished. cbn [stdout slept requests sink].
  now rewrite <- app_assoc.
Qed.

(** ** Text that is no number *)









(** ** The Day Extractor *)

Lemma hour_of_row_text (d : date) (col : nat) (tr : node) (s : string) :
  cell_string col tr = Some (Some s) ->
  hour_of_row d col (findAll "td" tr) = Ok (Some (record_of d col tr)).
Proof.
  unfold hour_of_row, record_of, cell_string, item, bind_result.
  intros H; rewrite H.
  destruct (nth_error (findAll "td" tr) col) as [cell|] eqn:C; [|discriminate].
  cbn in H. injection H as H. rewrite H.
  destruct (findAll "td" tr) as [|label tds]; [now destruct col|reflexivity].
Qed.

Lemma hour_of_row_no_text (d : date) (col : nat) (tr : node) :
  cell_string col tr = Some None ->
  hour_of_row d col (findAll "td" tr) = Ok None.
Proof.
  unfold hour_of_row, cell_string, item, bind_result.
  destruct (nth_error (findAll "td" tr) col) as [cell|]; [|discriminate].
  cbn. intros H; injection H as H. now rewrite H.
Qed.

Lemma hour_of_row_no_cell (d : date) (col : nat) (tr : node) :
  cell_string col tr = None ->
  hour_of_row d col (findAll "td" tr) = Raise IndexError.
Proof.
  unfold hour_of_row, cell_string, item, bind_result.
  destruct (nth_error (findAll "td" tr) col) as [cell|]; [discriminate|].
  reflexivity.
Qed.

(** One turn of the row loop, by what the target cell of the row is. *)
Lemma scan_rows_cons (d : date) (ft : option string) (col : nat)
  (tr : node) (trs : list node) (acc : list row) :
  target_col ft = Some col ->
  scan_rows d ft (tr :: trs) acc =
  match cell_string col tr with
  | None => Raise IndexError
  | Some None => Ok acc
  | Some (Some _) => scan_rows d ft trs (acc ++ [record_of d col tr])
  end.
Proof.
  unfold target_col; intros T. cbn [scan_rows].
  destruct (facility_is ft "s1"); [|destruct (facility_is ft "a1")];
    inversion T; subst col;
    (destruct (cell_string _ tr) as [[s|]|] eqn:C;
     [rewrite (hour_of_row_text d _ tr s C)
     |rewrite (hour_of_row_no_text d _ tr C)
     |rewrite (hour_of_row_no_cell d _ tr C)]; reflexivity).
Qed.

Lemma scan_rows_no_layout (d : date) (ft : option string)
  (trs : list node) (acc : list row) :
  target_col ft = None -> scan_rows d ft trs acc = Ok acc.
Proof.
  unfold target_col; intros T; revert acc.
  induction trs as [|tr trs IH]; intros acc; cbn [scan_rows]; [reflexivity|].
  destruct (facility_is ft "s1"); [discriminate|].
  destruct (facility_is ft "a1"); [discriminate|]. apply IH.
Qed.

(** The loop returns the records of the rows before the first row whose
    target cell has no text, when every row before has one. *)
Lemma scan_rows_stop (d : date) (ft : option string) (col : nat)
  (trs : list node) (k : nat) (acc : list row) :
  target_col ft = Some col ->
  (forall j tr, (j < k)%nat -> nth_error trs j = Some tr ->
                exists s, cell_string col tr = Some (Some s)) ->
  (exists tr, nth_error trs k = Some tr /\ cell_string col tr = Some None) ->
  scan_rows d ft trs acc = Ok (acc ++ map (record_of d col) (firstn k trs)).
Proof.
  intros T; revert k acc; induction trs as [|tr trs IH]; intros k acc Hb Hk.
  - destruct Hk as (tr & Hk & _). now destruct k.
  - rewrite (scan_rows_cons d ft col) by assumption.
    destruct k as [|k].
    + destruct Hk as (tr' & Hk & C). cbn in Hk. injection Hk as <-.
      rewrite C. cbn. now rewrite app_nil_r.
    + destruct (Hb 0%nat tr) as (s & C); [lia|reflexivity|]. rewrite C.
      rewrite (IH k); [cbn; now rewrite <- app_assoc| |exact Hk].
      intros j tr' Hj Hn. apply (Hb (S j)); [lia|exact Hn].
Qed.

(** Whatever the table, a returned list is the records of a prefix of the
    rows, all of them rows whose target cell has a text. *)
Lemma scan_rows_ok (d : date) (ft : option string) (col : nat)
  (trs : list node) (acc recs : list row) :
  target_col ft = Some col ->
  scan_rows d ft trs acc = Ok recs ->
  exists k, (k <= List.length trs)%nat /\
    recs = acc ++ map (record_of d col) (firstn k trs) /\
    Forall (fun tr => exists s, cell_string col tr = Some (Some s))
      (firstn k trs).
Proof.
  intros T; revert acc; induction trs as [|tr trs IH]; intros acc H.
  - cbn in H. injection H as <-. exists 0%nat. cbn.
    rewrite app_nil_r. auto.
  - rewrite (scan_rows_cons d ft col) in H by assumption.
    destruct (cell_string col tr) as [[s|]|] eqn:C; [| |discriminate].
    + destruct (IH _ H) as (k & Hk & -> & F).
      exists (S k). cbn. rewrite <- app_assoc. repeat split; [lia|].
      constructor; eauto.
    + injection H as <-. exists 0%nat. cbn. rewrite app_nil_r.
      repeat split; [lia|constructor].
Qed.

Lemma scraping_day_per_hour_ok (w : world) (url : string) (d : date)
  (ft : option string) (st st' : state) (recs : list row) :
  scraping_day_per_hour w url d ft st = Some (Ok recs, st') ->
  exists soup table,
    fetch w url = Ok soup /\ find "table" "data2_s" soup = Some table /\
    scan_rows d ft (skipn 2 (findAll "tr" table)) [] = Ok recs.
Proof.
  rewrite scraping_run. unfold bind_result, extract. intros H.
  destruct (fetch w url) as [soup|] eqn:Fe; [|discriminate].
  destruct (find "table" "data2_s" soup) as [table|] eqn:Fi; [|discriminate].
  exists soup, table. repeat split; auto. congruence.
Qed.

Lemma precipitation_record_of (d : date) (col : nat) (tr : node) (s : string) :
  cell_string col tr = Some (Some s) ->
  precipitation (record_of d col tr) = string_to_float s.
Proof. unfold precipitation, record_of; intros ->; reflexivity. Qed.

Lemma string_to_float_not_None (s : string) : string_to_float s <> VNone.
Proof. unfold string_to_float; destruct (float s); discriminate. Qed.

Lemma string_to_float_finite (s : string) :
  is_finite_number (string_to_float s) = true \/
  exists f, float s = Ok f /\ is_finite f = false.
Proof.
  unfold string_to_float. destruct (float s) as [f|]; [|now left].
  cbn. destruct (is_finite f) eqn:F; eauto.
Qed.

(** The records of a returned list, one by one. *)
Lemma scraping_day_per_hour_records (w : world) (url : string) (d : date)
  (ft : option string) (st st' : state) (recs : list row) :
  scraping_day_per_hour w url d ft st = Some (Ok recs, st') ->
  recs = [] \/
  exists col table k,
    target_col ft = Some col /\
    (exists soup, fetch w url = Ok soup /\
                  find "table" "data2_s" soup = Some table) /\
    (k <= List.length (skipn 2 (findAll "tr" table)))%nat /\
    recs = map (record_of d col) (firstn k (skipn 2 (findAll "tr" table))) /\
    Forall (fun tr => exists s, cell_string col tr = Some (Some s))
      (firstn k (skipn 2 (findAll "tr" table))).
Proof.
  intros H. apply scraping_day_per_hour_ok in H.
  destruct H as (soup & table & Fe & Fi & Sc).
  destruct (target_col ft) as [col|] eqn:T.
  - right. destruct (scan_rows_ok d ft col _ _ _ T Sc) as (k & Hk & E & F).
    exists col, table, k. repeat split; eauto.
  - left. rewrite scan_rows_no_layout in Sc by assumption. now injection Sc.
Qed.

(** Every record of a returned list carries the date asked for. *)
Lemma scraping_day_per_hour_dates (w : world) (url : string) (d : date)
  (ft : option string) (st st' : state) (recs : list row) :
  scraping_day_per_hour w url d ft st = Some (Ok recs, st') ->
  Forall (fun r => nth_error r 0 = Some (VDate d)) recs.
Proof.
  intros H. apply scraping_day_per_hour_records in H.
  destruct H as [->|(col & table & k & _ & _ & _ & -> & _)]; [constructor|].
  apply Forall_map, Forall_forall. reflexivity.
Qed.

(** C1: for a station code whose length is neither 4 nor 5, here "123",
    the Station Classifier prints its two lines and returns None; no
    failure is signalled. *)
Theorem select_weather_observatory_invalid_length :
  select_weather_observatory "123" start_state =
  Some (Ok None,
        mkstate ["block_noが無効なため停止"; "block_noを5桁か4桁で入力してください"]
          0 [] None).
Proof. reflexivity. Qed.

(** The classifier over every station code: the layout by the length, and
    never an exception. *)
Lemma select_weather_observatory_cases (bn : string) (st : state) :
  exists st',
    select_weather_observatory bn st =
    Some (Ok (if len bn =? 5 then Some "s1"
              else if len bn =? 4 then Some "a1" else None), st').
Proof. rewrite select_weather_observatory_run. eexists; reflexivity. Qed.

(** [float_12_3] is within half a unit in the last place of 12.3. *)
Lemma float_12_3_nearest :
  match float_12_3 with
  | S754_finite false m e =>
      e = -49 /\ Z.abs (10 * Zpos m - 123 * 2 ^ 49) * 2 <= 10
  | _ => False
  end.
Proof. split; [reflexivity|]. vm_compute. discriminate. Qed.

(** C3 (as stated, refuted): on the empty string the Value Coercer does not
    return a floating-point number; it returns the integer 0. *)
Lemma string_to_float_empty_not_float :
  string_to_float "" = VInt 0 /\
  ~ (exists f : pyfloat, string_to_float "" = VFloat f).
Proof. split; [reflexivity|]. intros (f & H). discriminate H. Qed.

(** C3 (amended): for every input string the Value Coercer returns and
    never raises: the parsed float when the text parses ("12.3" gives 12.3,
    "0" gives 0.0), and the integer 0 when it does not (the empty string,
    the placeholder "×", "--"). *)
Theorem string_to_float_returns :
  (forall s : string,
      match float s with
      | Ok f => string_to_float s = VFloat f
      | Raise _ => string_to_float s = VInt 0
      end) /\
  string_to_float "12.3" = VFloat float_12_3 /\
  string_to_float "0" = VFloat (S754_zero false) /\
  string_to_float "" = VInt 0 /\
  string_to_float times_sign = VInt 0 /\
  string_to_float "--" = VInt 0.
Proof.
  split; [|repeat split; vm_compute; reflexivity].
  intros s. unfold string_to_float. now destruct (float s).
Qed.

(** C2 (as stated, refuted): the first data row of [page_empty_cell] has
    its precipitation cell present and empty, and the Day Extractor stops
    there: no record with 0.0 for that row, and none for the row after. *)
Lemma day_extractor_empty_cell_stops :
  nth_error (findAll "td" (s1_row "1" empty_td)) 3 = Some (Tag "td" [] []) /\
  exists st,
    scraping_day_per_hour (world_of page_empty_cell) some_url day_1
      (Some "s1") start_state = Some (Ok [], st).
Proof. split; [reflexivity|]. eexists. vm_compute. reflexivity. Qed.

(** A row that lacks the precipitation cell altogether makes the Day
    Extractor raise. *)
Lemma day_extractor_missing_cell_raises :
  nth_error (findAll "td" (tr [td "1"; td "1013.2"])) 3 = None /\
  exists st,
    scraping_day_per_hour (world_of page_short_row) some_url day_1
      (Some "s1") start_state = Some (Raise IndexError, st).
Proof. split; [reflexivity|]. eexists. vm_compute. reflexivity. Qed.

(** C2 (amended): when row [k] after the two header rows is the first row
    whose precipitation cell has no text of its own (its [.string] is None:
    an empty cell, or one with several children) and the rows before it
    have one, the Day Extractor returns exactly [k] records and reads no
    further row; a cell whose text is present does not end the loop, and
    when that text does not parse its record has precipitation integer 0. *)
Theorem day_extractor_stops_at_first_textless_cell
  (w : world) (url : string) (d : date) (ft : option string) (st : state)
  (soup table : node) (col k : nat) :
  fetch w url = Ok soup ->
  find "table" "data2_s" soup = Some table ->
  target_col ft = Some col ->
  (forall j tr, (j < k)%nat ->
     nth_error (skipn 2 (findAll "tr" table)) j = Some tr ->
     exists s, cell_string col tr = Some (Some s)) ->
  (exists tr, nth_error (skipn 2 (findAll "tr" table)) k = Some tr /\
              cell_string col tr = Some None) ->
  exists recs st',
    scraping_day_per_hour w url d ft st = Some (Ok recs, st') /\
    List.length recs = k /\
    forall j tr s, (j < k)%nat ->
      nth_error (skipn 2 (findAll "tr" table)) j = Some tr ->
      cell_string col tr = Some (Some s) ->
      exists r, nth_error recs j = Some r /\
        precipitation r = string_to_float s /\
        (forall e, float s = Raise e -> precipitation r = VInt 0).
Proof.
  intros Fe Fi T Hb Hk.
  set (trs := skipn 2 (findAll "tr" table)) in *.
  exists (map (record_of d col) (firstn k trs)). eexists.
  split; [|split].
  - rewrite scraping_run, Fe. unfold bind_result, extract. rewrite Fi.
    fold trs. rewrite (scan_rows_stop d ft col trs k []); auto.
  - destruct Hk as (tr & Hk & _).
    rewrite length_map, firstn_length_le; [reflexivity|].
    apply Nat.lt_le_incl, nth_error_Some. congruence.
  - intros j tr s Hj Hn C. exists (record_of d col tr).
    rewrite nth_error_map, nth_error_firstn.
    apply Nat.ltb_lt in Hj. rewrite Hj, Hn.
    split; [reflexivity|]. rewrite (precipitation_record_of d col tr s C).
    split; [reflexivity|]. intros e E. unfold string_to_float. now rewrite E.
Qed.

Lemma day_extractor_stops_witness :
  exists recs st',
    scraping_day_per_hour (world_of page_stop) some_url day_1 (Some "s1")
      start_state = Some (Ok recs, st') /\
    List.length recs = 2%nat /\
    forall j tr s, (j < 2)%nat ->
      nth_error (skipn 2 (findAll "tr" (Tag "table" ["data2_s"]
        [header_row; header_row; s1_row "1" (td "0.5"); s1_row "2" (td "--");
         s1_row "3" empty_td; s1_row "4" (td "1.0")]))) j = Some tr ->
      cell_string 3 tr = Some (Some s) ->
      exists r, nth_error recs j = Some r /\
        precipitation r = string_to_float s /\
        (forall e, float s = Raise e -> precipitation r = VInt 0).
Proof.
  apply (day_extractor_stops_at_first_textless_cell (world_of page_stop)
           some_url day_1 (Some "s1") start_state page_stop
           (Tag "table" ["data2_s"]
              [header_row; header_row; s1_row "1" (td "0.5");
               s1_row "2" (td "--"); s1_row "3" empty_td;
               s1_row "4" (td "1.0")]) 3%nat 2%nat).
  - reflexivity.
  - reflexivity.
  - reflexivity.
  - intros j tr Hj Hn.
    destruct j as [|[|j]]; [| |lia]; cbn in Hn; injection Hn as <-;
      eexists; reflexivity.
  - eexists; split; reflexivity.
Defined.

(** C4 (as stated, refuted): a cell that reads "nan" gives a record whose
    precipitation is NaN. *)
Lemma day_extractor_nan_record :
  exists st,
    scraping_day_per_hour (world_of page_nan) some_url day_1 (Some "s1")
      start_state = Some (Ok [[VDate day_1; VStr "1"; VFloat S754_nan]], st) /\
    is_finite_number (precipitation [VDate day_1; VStr "1"; VFloat S754_nan])
    = false.
Proof. eexists. split; vm_compute; reflexivity. Qed.

(** C4 (amended): the precipitation of every record the Day Extractor
    produces is never missing: it is what the Value Coercer makes of the
    text of the precipitation cell of a row of the table, so the integer 0
    when the text does not parse and the parsed float otherwise; it is a
    finite number unless the text itself parses to NaN or an infinity. *)
Theorem day_extractor_precipitation (w : world) (url : string) (d : date)
  (ft : option string) (st st' : state) (recs : list row) :
  scraping_day_per_hour w url d ft st = Some (Ok recs, st') ->
  exists soup table,
    fetch w url = Ok soup /\ find "table" "data2_s" soup = Some table /\
    Forall (fun r =>
              exists tr col text,
                In tr (skipn 2 (findAll "tr" table)) /\
                target_col ft = Some col /\
                cell_string col tr = Some (Some text) /\
                precipitation r = string_to_float text /\
                precipitation r <> VNone /\
                (is_finite_number (precipitation r) = true \/
                 exists f, float text = Ok f /\ is_finite f = false))
      recs.
Proof.
  intros H. pose proof (scraping_day_per_hour_ok _ _ _ _ _ _ _ H)
    as (soup & table & Fe & Fi & _).
  exists soup, table. split; [exact Fe|]. split; [exact Fi|].
  apply scraping_day_per_hour_records in H.
  destruct H as [->|(col & table' & k & T & (soup' & Fe' & Fi') & _ & -> & F)];
    [constructor|].
  assert (table' = table) by congruence. subst table'.
  apply Forall_map. rewrite Forall_forall in *. intros tr HI.
  destruct (F tr HI) as (s & C). exists tr, col, s.
  rewrite (precipitation_record_of d col tr s C).
  repeat split; auto using string_to_float_not_None, string_to_float_finite.
  rewrite <- (firstn_skipn k (skipn 2 (findAll "tr" table))).
  apply in_or_app. now left.
Qed.

Lemma day_extractor_precipitation_witness :
  exists soup table,
    fetch (world_of page_nan) some_url = Ok soup /\
    find "table" "data2_s" soup = Some table /\
    Forall (fun r =>
              exists tr col text,
                In tr (skipn 2 (findAll "tr" table)) /\
                target_col (Some "s1") = Some col /\
                cell_string col tr = Some (Some text) /\
                precipitation r = string_to_float text /\
                precipitation r <> VNone /\
                (is_finite_number (precipitation r) = true \/
                 exists f, float text = Ok f /\ is_finite f = false))
      [[VDate day_1; VStr "1"; VFloat S754_nan]].
Proof.
  apply (day_extractor_precipitation (world_of page_nan) some_url day_1
           (Some "s1") start_state
           (mkstate [] 0 [some_url] None)).
  vm_compute. reflexivity.
Defined.

(** C6 (as stated, refuted): a table with 25 data rows gives 25 records. *)
Lemma day_extractor_25_records :
  exists recs st,
    scraping_day_per_hour (world_of page_25) some_url day_1 (Some "a1")
      start_state = Some (Ok recs, st) /\
    List.length recs = 25%nat.
Proof. do 2 eexists. split; vm_compute; reflexivity. Qed.

(** C6 (amended): the sequence the Day Extractor returns has at most one
    record per row of the table after the two header rows, the record at
    position [j] being that of row [j], and each one carries the date asked
    for; so it has at most 24 records when the table has at most 26 rows. *)
Theorem day_extractor_length (w : world) (url : string) (d : date)
  (ft : option string) (st st' : state) (recs : list row) :
  scraping_day_per_hour w url d ft st = Some (Ok recs, st') ->
  exists soup table,
    fetch w url = Ok soup /\ find "table" "data2_s" soup = Some table /\
    (List.length recs <= List.length (findAll "tr" table) - 2)%nat /\
    ((List.length (findAll "tr" table) <= 26)%nat ->
     (List.length recs <= 24)%nat) /\
    (forall j r, nth_error recs j = Some r ->
       exists tr col,
         nth_error (skipn 2 (findAll "tr" table)) j = Some tr /\
         target_col ft = Some col /\ r = record_of d col tr) /\
    Forall (fun r => nth_error r 0 = Some (VDate d)) recs.
Proof.
  intros H. pose proof (scraping_day_per_hour_ok _ _ _ _ _ _ _ H)
    as (soup & table & Fe & Fi & _).
  pose proof (scraping_day_per_hour_dates _ _ _ _ _ _ _ H) as Dt.
  exists soup, table. split; [exact Fe|]. split; [exact Fi|].
  apply scraping_day_per_hour_records in H.
  destruct H as [->|(col & table' & k & T & (soup' & Fe' & Fi') & Hk & -> & _)].
  - cbn. repeat split; try lia; auto. intros [|j] r Hj; discriminate Hj.
  - assert (table' = table) by congruence. subst table'.
    rewrite length_skipn in Hk. rewrite length_map, length_firstn.
    repeat split; try lia; auto.
    intros j r Hj. rewrite nth_error_map, nth_error_firstn in Hj.
    destruct (j <? k)%nat; [|discriminate].
    destruct (nth_error (skipn 2 (findAll "tr" table)) j) as [tr|];
      [|discriminate].
    injection Hj as <-. exists tr, col. auto.
Qed.

Lemma day_extractor_length_witness :
  exists soup table,
    fetch (world_of page_stop) some_url = Ok soup /\
    find "table" "data2_s" soup = Some table /\
    (List.length [[VDate day_1; VStr "1"; string_to_float "0.5"];
                  [VDate day_1; VStr "2"; VInt 0]]
     <= List.length (findAll "tr" table) - 2)%nat /\
    ((List.length (findAll "tr" table) <= 26)%nat ->
     (List.length [[VDate day_1; VStr "1"; string_to_float "0.5"];
                   [VDate day_1; VStr "2"; VInt 0]] <= 24)%nat) /\
    (forall j r,
       nth_error [[VDate day_1; VStr "1"; string_to_float "0.5"];
                  [VDate day_1; VStr "2"; VInt 0]] j = Some r ->
       exists tr col,
         nth_error (skipn 2 (findAll "tr" table)) j = Some tr /\
         target_col (Some "s1") = Some col /\ r = record_of day_1 col tr) /\
    Forall (fun r => nth_error r 0 = Some (VDate day_1))
      [[VDate day_1; VStr "1"; string_to_float "0.5"];
       [VDate day_1; VStr "2"; VInt 0]].
Proof.
  apply (day_extractor_length (world_of page_stop) some_url day_1
           (Some "s1") start_state (mkstate [] 0 [some_url] None)).
  vm_compute. reflexivity.
Defined.

(** ** The Range Collector *)

Section Days.
Variables (w : world) (ft : option string) (pn bn : string).

Lemma visited_prefix (ds : list date) :
  exists rest, ds = visited (day_ok w ft pn bn) ds ++ rest.
Proof.
  induction ds as [|d ds (rest & IH)]; [now exists []|]. cbn [visited].
  destruct (day_ok w ft pn bn d).
  - exists rest. cbn. now rewrite <- IH.
  - now exists ds.
Qed.

Lemma loop_result_ok_visited (ds : list date) (u : unit) :
  loop_result w ft pn bn ds = Ok u ->
  visited (day_ok w ft pn bn) ds = ds.
Proof.
  induction ds as [|d ds IH]; [reflexivity|]. cbn [loop_result visited].
  destruct (day_result w ft pn bn d) eqn:R; [|discriminate].
  replace (day_ok w ft pn bn d) with true by (unfold day_ok; now rewrite R).
  destruct (add_one_day d); [|discriminate].
  intros H. now rewrite IH.
Qed.

(** Along the days of a range, the loop ends at the first day whose
    extraction raises, with that exception. *)
Lemma first_failure (n : nat) (e d k : date) (pre post : list date)
  (x : exn) :
  days_from n e d = pre ++ k :: post ->
  Forall (fun d => day_ok w ft pn bn d = true) pre ->
  day_result w ft pn bn k = Raise x ->
  loop_result w ft pn bn (days_from n e d) = Raise x /\
  visited (day_ok w ft pn bn) (days_from n e d) = pre ++ [k].
Proof.
  revert d pre; induction n as [|n IH]; intros d pre E F R.
  - cbn in E. now destruct pre.
  - cbn [days_from] in *. destruct (date_le d e); [|now destruct pre].
    destruct pre as [|p pre]; cbn [app] in E; injection E as E1 E2.
    + subst d. cbn [loop_result visited app].
      replace (day_ok w ft pn bn k) with false
        by (unfold day_ok; now rewrite R).
      now rewrite R.
    + subst p. inversion F as [|? ? Fp F']; subst.
      cbn [loop_result visited app]. rewrite Fp.
      unfold day_ok in Fp.
      destruct (day_result w ft pn bn d); [|discriminate].
      destruct (add_one_day d) as [d'|]; [|now destruct pre].
      destruct (IH d' pre E2 F' R) as (-> & ->). auto.
Qed.

(** When every day of the range is extracted and the range ends before
    the last day of the calendar, the loop ends normally. *)
Lemma all_days_ok (n : nat) (e d : date) :
  valid_date d = true -> valid_date e = true -> e <> last_day ->
  Forall (fun d => day_ok w ft pn bn d = true) (days_from n e d) ->
  loop_result w ft pn bn (days_from n e d) = Ok tt.
Proof.
  intros V Ve NL; revert d V; induction n as [|n IH]; intros d V F;
    [reflexivity|].
  cbn [days_from] in *. destruct (date_le d e) eqn:L; [|reflexivity].
  inversion F as [|? ? Fd F']; subst. cbn [loop_result].
  unfold day_ok in Fd.
  destruct (day_result w ft pn bn d); [|discriminate].
  destruct (add_one_day d) as [d'|x] eqn:A.
  - destruct (add_one_day_valid d d' V A) as (V' & _). auto.
  - destruct (add_one_day_raises d x V A) as (-> & _).
    exfalso. apply NL. apply date_index_inj; auto.
    apply date_le_index in L; auto.
    apply valid_date_bounds in Ve.
    pose proof (days_in_month_bounds (year e) (month e)).
    unfold day_index, last_day in *; cbn [year month day] in *. lia.
Qed.

Lemma flat_map_day_rows_failed (pre : list date) (k : date) (x : exn) :
  day_result w ft pn bn k = Raise x ->
  flat_map (day_rows w ft pn bn) (pre ++ [k]) =
  flat_map (day_rows w ft pn bn) pre.
Proof.
  intros R. rewrite flat_map_app. cbn. unfold day_rows at 2. rewrite R.
  now rewrite !app_nil_r.
Qed.
End Days.

(** The final state of a run whose two dates are read. *)
Lemma create_csv_hour_state (w : world) (inp : user_input) (s e : date) :
  date_of_input (start_input_list inp) = Ok s ->
  date_of_input (end_input_list inp) = Ok e ->
  let ft := facility_of (block_no inp) in
  let vs := visited (day_ok w ft (prec_no inp) (block_no inp))
              (date_range s e) in
  exists st,
    create_csv_hour w inp start_state =
    Some (loop_result w ft (prec_no inp) (block_no inp) (date_range s e), st) /\
    sink_rows st =
      fields :: flat_map (day_rows w ft (prec_no inp) (block_no inp)) vs /\
    requests st = map (page_url ft (prec_no inp) (block_no inp)) vs /\
    sink_closed st = true /\
    stdout st =
      "雨量データを取得中..." :: classifier_lines (block_no inp) ++
      map isoformat vs ++
      match loop_result w ft (prec_no inp) (block_no inp) (date_range s e) with
      | Ok _ => [processing_time w; ">>完了<<"]
      | Raise _ => []
      end.
Proof.
  intros Hs He ft vs.
  rewrite (create_csv_hour_run w inp s e Hs He). fold ft. fold vs.
  set (st := close _).
  assert (Rw : sink_rows st =
               fields :: flat_map (day_rows w ft (prec_no inp) (block_no inp)) vs).
  { unfold st, sink_rows, close. cbn [sink]. rewrite after_days_sink. reflexivity. }
  assert (Rq : requests st = map (page_url ft (prec_no inp) (block_no inp)) vs).
  { unfold st, close. cbn [requests]. rewrite after_days_requests. reflexivity. }
  assert (Cl : sink_closed st = true).
  { unfold st, sink_closed, close. cbn [sink]. rewrite after_days_sink. reflexivity. }
  assert (So : stdout st = "雨量データを取得中..." :: classifier_lines (block_no inp) ++
                           map isoformat vs).
  { unfold st, close. cbn [stdout]. rewrite after_days_stdout. reflexivity. }
  destruct (loop_result w ft (prec_no inp) (block_no inp) (date_range s e))
    as [[]|x].
  - exists (finished w st). unfold finished, sink_rows, sink_closed in *.
    cbn [sink requests stdout]. repeat split; auto.
    rewrite So. cbn. now rewrite <- app_assoc.
  - exists st. repeat split; auto. rewrite So. now rewrite app_nil_r.
Qed.

Lemma visited_all_ok (w : world) (ft : option string) (pn bn : string)
  (ds : list date) :
  (forall d, In d ds -> exists l, day_result w ft pn bn d = Ok l) ->
  visited (day_ok w ft pn bn) ds = ds /\
  Forall (fun d => day_ok w ft pn bn d = true) ds.
Proof.
  induction ds as [|d ds IH]; intros H; [split; [reflexivity|constructor]|].
  assert (K : day_ok w ft pn bn d = true).
  { destruct (H d) as (l & E); [now left|]. unfold day_ok. now rewrite E. }
  destruct IH as (IH1 & IH2); [intros x Hx; apply H; now right|].
  cbn [visited]. rewrite K, IH1. split; [reflexivity|now constructor].
Qed.

(** C5: the output table of a run starts with the header row; after it
    come the rows of the days the run visits, day after day in ascending
    order of date, the rows of a day exactly the list the Day Extractor
    returned for it, in its order.  The days visited are the days of the
    range up to the first one whose extraction raises; when every day of
    the range is extracted they are all the days from the start date to
    the end date, one group for each, and the run ends normally (unless
    the end date is the last day of the calendar). *)
Theorem range_collector_rows_in_order (w : world) (inp : user_input)
  (s e : date) :
  date_of_input (start_input_list inp) = Ok s ->
  date_of_input (end_input_list inp) = Ok e ->
  let ft := facility_of (block_no inp) in
  let days :=
    visited (day_ok w ft (prec_no inp) (block_no inp)) (date_range s e) in
  exists r st,
    create_csv_hour w inp start_state = Some (r, st) /\
    r = loop_result w ft (prec_no inp) (block_no inp) (date_range s e) /\
    sink_rows st =
      fields :: flat_map (day_rows w ft (prec_no inp) (block_no inp)) days /\
    (exists rest, date_range s e = days ++ rest) /\
    ((forall d, In d (date_range s e) ->
        exists l, day_result w ft (prec_no inp) (block_no inp) d = Ok l) ->
     days = date_range s e /\
     sink_rows st =
       fields :: flat_map (day_rows w ft (prec_no inp) (block_no inp))
                   (date_range s e) /\
     (e <> last_day -> r = Ok tt)) /\
    StronglySorted date_ltP (date_range s e) /\
    (forall x, In x (date_range s e) <->
               valid_date x = true /\ date_le s x = true /\
               date_le x e = true) /\
    (forall d st0 l st1,
        scraping_day_per_hour w
          (page_url ft (prec_no inp) (block_no inp) d) d ft st0
        = Some (Ok l, st1) ->
        day_rows w ft (prec_no inp) (block_no inp) d = l /\
        Forall (fun r => nth_error r 0 = Some (VDate d)) l).
Proof.
  intros Hs He ft days.
  pose proof (date_of_input_valid _ _ Hs) as Vs.
  pose proof (date_of_input_valid _ _ He) as Ve.
  destruct (create_csv_hour_state w inp s e Hs He) as (st & Run & Rw & _).
  fold ft in Run, Rw. fold days in Rw.
  exists (loop_result w ft (prec_no inp) (block_no inp) (date_range s e)), st.
  split; [exact Run|]. split; [reflexivity|]. split; [exact Rw|].
  split; [exact (visited_prefix w ft (prec_no inp) (block_no inp) _)|].
  split; [|split; [now apply days_from_sorted|split]].
  - intros All.
    destruct (visited_all_ok w ft (prec_no inp) (block_no inp) _ All)
      as (Vi & Fo).
    fold days in Vi. split; [exact Vi|]. split; [now rewrite <- Vi|].
    intros NL. now apply all_days_ok.
  - intros x; now apply date_range_In.
  - intros d st0 l st1 Sc. split.
    + rewrite scraping_run in Sc. injection Sc as Sc _.
      unfold day_rows, day_result. now rewrite Sc.
    + exact (scraping_day_per_hour_dates _ _ _ _ _ _ _ Sc).
Qed.

Lemma range_collector_rows_in_order_witness :
  let w := world_of page_stop in
  let ft := facility_of (block_no input_3days) in
  let days := visited (day_ok w ft "44" "47662") (date_range day_1 day_3) in
  exists r st,
    create_csv_hour w input_3days start_state = Some (r, st) /\
    r = loop_result w ft "44" "47662" (date_range day_1 day_3) /\
    sink_rows st = fields :: flat_map (day_rows w ft "44" "47662") days /\
    (exists rest, date_range day_1 day_3 = days ++ rest) /\
    ((forall d, In d (date_range day_1 day_3) ->
        exists l, day_result w ft "44" "47662" d = Ok l) ->
     days = date_range day_1 day_3 /\
     sink_rows st =
       fields :: flat_map (day_rows w ft "44" "47662")
                   (date_range day_1 day_3) /\
     (day_3 <> last_day -> r = Ok tt)) /\
    StronglySorted date_ltP (date_range day_1 day_3) /\
    (forall x, In x (date_range day_1 day_3) <->
               valid_date x = true /\ date_le day_1 x = true /\
               date_le x day_3 = true) /\
    (forall d st0 l st1,
        scraping_day_per_hour w (page_url ft "44" "47662" d) d ft st0
        = Some (Ok l, st1) ->
        day_rows w ft "44" "47662" d = l /\
        Forall (fun r => nth_error r 0 = Some (VDate d)) l).
Proof.
  apply (range_collector_rows_in_order (world_of page_stop) input_3days
           day_1 day_3); vm_compute; reflexivity.
Defined.

(** The three days of [input_3days], run: it ends normally, and the file
    holds the header and then the two rows of each day, day after day. *)
Lemma three_days_run :
  exists st,
    create_csv_hour (world_of page_stop) input_3days start_state
    = Some (Ok tt, st) /\
    sink_rows st =
      [fields;
       [VDate day_1; VStr "1"; string_to_float "0.5"];
       [VDate day_1; VStr "2"; VInt 0];
       [VDate day_2; VStr "1"; string_to_float "0.5"];
       [VDate day_2; VStr "2"; VInt 0];
       [VDate day_3; VStr "1"; string_to_float "0.5"];
       [VDate day_3; VStr "2"; VInt 0]] /\
    requests st = map (page_url (Some "s1") "44" "47662") [day_1; day_2; day_3].
Proof. eexists. repeat split; vm_compute; reflexivity. Qed.

(** C7: when the start date is the end date the run makes exactly one
    request, for that day, and writes the header and that day's rows; when
    the start date is after the end date it makes no request, writes the
    header alone, ends normally, and prints nothing but its usual lines. *)
Theorem range_collector_boundaries (w : world) (inp : user_input)
  (s e : date) :
  date_of_input (start_input_list inp) = Ok s ->
  date_of_input (end_input_list inp) = Ok e ->
  let ft := facility_of (block_no inp) in
  exists r st,
    create_csv_hour w inp start_state = Some (r, st) /\
    (s = e ->
     requests st = [page_url ft (prec_no inp) (block_no inp) s] /\
     sink_rows st = fields :: day_rows w ft (prec_no inp) (block_no inp) s) /\
    (date_lt e s = true ->
     r = Ok tt /\ requests st = [] /\ sink_rows st = [fields] /\
     stdout st =
       "雨量データを取得中..." :: classifier_lines (block_no inp) ++
       [processing_time w; ">>完了<<"]).
Proof.
  intros Hs He ft.
  destruct (create_csv_hour_state w inp s e Hs He)
    as (st & Run & Rw & Rq & _ & So).
  fold ft in Run, Rw, Rq, So.
  exists (loop_result w ft (prec_no inp) (block_no inp) (date_range s e)), st.
  split; [exact Run|]. split.
  - intros <-. rewrite date_range_single in Rw, Rq. cbn [visited] in Rw, Rq.
    destruct (day_ok w ft (prec_no inp) (block_no inp) s);
      cbn in Rw, Rq; rewrite app_nil_r in Rw; auto.
  - intros L. rewrite (date_range_reversed s e L) in *.
    cbn in Rw, Rq, So. auto.
Qed.

Lemma range_collector_boundaries_witness :
  let w := world_of page_stop in
  let ft := facility_of (block_no input_1day) in
  exists r st,
    create_csv_hour w input_1day start_state = Some (r, st) /\
    (day_1 = day_1 ->
     requests st = [page_url ft "44" "47662" day_1] /\
     sink_rows st = fields :: day_rows w ft "44" "47662" day_1) /\
    (date_lt day_1 day_1 = true ->
     r = Ok tt /\ requests st = [] /\ sink_rows st = [fields] /\
     stdout st =
       "雨量データを取得中..." :: classifier_lines "47662" ++
       [processing_time w; ">>完了<<"]).
Proof.
  apply (range_collector_boundaries (world_of page_stop) input_1day
           day_1 day_1); vm_compute; reflexivity.
Defined.

(** The reversed range, run: no request, the header alone, a normal end. *)
Lemma reversed_range_run :
  exists st,
    create_csv_hour (world_of page_stop) input_reversed start_state
    = Some (Ok tt, st) /\
    requests st = [] /\ sink_rows st = [fields] /\ sink_closed st = true.
Proof. eexists. repeat split; vm_compute; reflexivity. Qed.

(** C8: when the extraction of day [k] raises and the days before it were
    extracted, the exception leaves the run, and the file holds the header
    and the rows of the days before [k]; day [k] is the last one asked
    for. *)
Theorem range_collector_failure_keeps_rows (w : world) (inp : user_input)
  (s e k : date) (pre post : list date) (x : exn) :
  date_of_input (start_input_list inp) = Ok s ->
  date_of_input (end_input_list inp) = Ok e ->
  let ft := facility_of (block_no inp) in
  date_range s e = pre ++ k :: post ->
  Forall (fun d => exists l,
            day_result w ft (prec_no inp) (block_no inp) d = Ok l) pre ->
  day_result w ft (prec_no inp) (block_no inp) k = Raise x ->
  exists st,
    create_csv_hour w inp start_state = Some (Raise x, st) /\
    sink_rows st =
      fields :: flat_map (day_rows w ft (prec_no inp) (block_no inp)) pre /\
    requests st = map (page_url ft (prec_no inp) (block_no inp)) (pre ++ [k]).
Proof.
  intros Hs He ft E F R.
  destruct (create_csv_hour_state w inp s e Hs He)
    as (st & Run & Rw & Rq & _).
  fold ft in Run, Rw, Rq.
  assert (F' : Forall (fun d => day_ok w ft (prec_no inp) (block_no inp) d = true) pre).
  { revert F. apply Forall_impl. intros d (l & H). unfold day_ok. now rewrite H. }
  destruct (first_failure w ft (prec_no inp) (block_no inp) _ e s k pre post x
              E F' R) as (LR & Vi).
  fold (date_range s e) in LR, Vi. rewrite LR in Run. rewrite Vi in Rw, Rq.
  rewrite (flat_map_day_rows_failed w ft _ _ pre k x R) in Rw.
  exists st. auto.
Qed.

Lemma range_collector_failure_witness :
  let w := world_failing_on day_2 in
  exists st,
    create_csv_hour w input_3days start_state = Some (Raise URLError, st) /\
    sink_rows st =
      fields :: flat_map (day_rows w (Some "s1") "44" "47662") [day_1] /\
    requests st = map (page_url (Some "s1") "44" "47662") ([day_1] ++ [day_2]).
Proof.
  apply (range_collector_failure_keeps_rows (world_failing_on day_2)
           input_3days day_1 day_3 day_2 [day_1] [day_3] URLError).
  - vm_compute; reflexivity.
  - vm_compute; reflexivity.
  - vm_compute; reflexivity.
  - constructor; [|constructor]. eexists. vm_compute. reflexivity.
  - vm_compute; reflexivity.
Defined.

(** C9 (as stated, refuted): a run whose first fetch fails; the exception
    leaves the date loop, and the output file is closed all the same. *)
Lemma failed_run_closes_sink :
  exists st,
    create_csv_hour offline input_3days start_state
    = Some (Raise URLError, st) /\
    sink_closed st = true.
Proof. eexists. split; vm_compute; reflexivity. Qed.

(** C9 (amended): when an exception leaves the date loop, the output file
    is closed: the [with] statement closes it on that path as on the
    normal one. *)
Theorem range_collector_closes_sink (w : world) (inp : user_input)
  (s e : date) (x : exn) (st : state) :
  date_of_input (start_input_list inp) = Ok s ->
  date_of_input (end_input_list inp) = Ok e ->
  create_csv_hour w inp start_state = Some (Raise x, st) ->
  sink_closed st = true.
Proof.
  intros Hs He Run.
  destruct (create_csv_hour_state w inp s e Hs He) as (st' & Run' & _ & _ & Cl & _).
  congruence.
Qed.

Lemma range_collector_closes_sink_witness :
  sink_closed
    (mkstate ["雨量データを取得中..."; "2020-01-07"] 1
       [page_url (Some "s1") "44" "47662" day_1]
       (Some (mkfile "out/weather_per_hour.csv" [fields] true)))
  = true.
Proof.
  apply (range_collector_closes_sink offline input_3days day_1 day_3 URLError);
    vm_compute; reflexivity.
Defined.

(** The file is closed on the normal path as well. *)
Lemma range_collector_closes_sink_always (w : world) (inp : user_input)
  (s e : date) (r : result unit) (st : state) :
  date_of_input (start_input_list inp) = Ok s ->
  date_of_input (end_input_list inp) = Ok e ->
  create_csv_hour w inp start_state = Some (r, st) ->
  sink_closed st = true.
Proof.
  intros Hs He Run.
  destruct (create_csv_hour_state w inp s e Hs He) as (st' & Run' & _ & _ & Cl & _).
  congruence.
Qed.

Lemma target_col_neither (ft : option string) :
  ft <> Some "s1" -> ft <> Some "a1" -> target_col ft = None.
Proof.
  intros N1 N2. unfold target_col, facility_is.
  destruct ft as [t|]; [|reflexivity].
  destruct (String.eqb_spec t "s1"); [congruence|].
  destruct (String.eqb_spec t "a1"); [congruence|]. reflexivity.
Qed.

Lemma scraping_no_layout (w : world) (url : string) (d : date)
  (ft : option string) (st : state) (soup table : node) :
  ft <> Some "s1" -> ft <> Some "a1" ->
  fetch w url = Ok soup -> find "table" "data2_s" soup = Some table ->
  scraping_day_per_hour w url d ft st =
  Some (Ok [], mkstate (stdout st) (slept st) (requests st ++ [url]) (sink st)).
Proof.
  intros N1 N2 Fe Fi. rewrite scraping_run, Fe. unfold bind_result, extract.
  rewrite Fi. rewrite scan_rows_no_layout; auto using target_col_neither.
Qed.

Lemma flat_map_nil {A B : Type} (f : A -> list B) (l : list A) :
  (forall x, In x l -> f x = []) -> flat_map f l = [].
Proof.
  induction l as [|a l IH]; intros H; [reflexivity|]. cbn.
  rewrite (H a) by now left. apply IH. intros x Hx. apply H. now right.
Qed.

(** C10 (as stated, refuted): a fetched page without the data table makes
    the Day Extractor raise, whatever the layout argument. *)
Lemma no_layout_no_table_raises :
  exists st,
    scraping_day_per_hour (world_of page_without_table)
      (page_url None "44" "123" day_1) day_1 None start_state
    = Some (Raise AttributeError, st).
Proof. eexists. vm_compute. reflexivity. Qed.

(** C10 (amended): for a fetched page that holds the data table, and a
    layout argument that is neither "s1" nor "a1", the Day Extractor
    returns the empty sequence and raises nothing; so a run whose station
    code has neither 4 nor 5 characters, whose days all have a fetched page
    with the table, and whose end date is not the last day of the calendar,
    ends normally with the header as the only row of the file. *)
Theorem no_layout_header_only (w : world) (inp : user_input) (s e : date) :
  date_of_input (start_input_list inp) = Ok s ->
  date_of_input (end_input_list inp) = Ok e ->
  len (block_no inp) <> 5 -> len (block_no inp) <> 4 ->
  e <> last_day ->
  (forall d, In d (date_range s e) ->
     exists soup table,
       fetch w (page_url None (prec_no inp) (block_no inp) d) = Ok soup /\
       find "table" "data2_s" soup = Some table) ->
  (forall url d ft st0 soup table,
      ft <> Some "s1" -> ft <> Some "a1" ->
      fetch w url = Ok soup -> find "table" "data2_s" soup = Some table ->
      exists st1, scraping_day_per_hour w url d ft st0 = Some (Ok [], st1)) /\
  exists st,
    create_csv_hour w inp start_state = Some (Ok tt, st) /\
    sink_rows st = [fields].
Proof.
  intros Hs He N5 N4 NL Pg. split.
  - intros url d ft st0 soup table N1 N2 Fe Fi.
    eexists. now apply (scraping_no_layout w url d ft st0 soup table).
  - pose proof (date_of_input_valid _ _ Hs) as Vs.
    pose proof (date_of_input_valid _ _ He) as Ve.
    destruct (create_csv_hour_state w inp s e Hs He) as (st & Run & Rw & _).
    assert (FT : facility_of (block_no inp) = None).
    { unfold facility_of.
      destruct (Z.eqb_spec (len (block_no inp)) 5); [contradiction|].
      destruct (Z.eqb_spec (len (block_no inp)) 4); [contradiction|].
      reflexivity. }
    rewrite FT in Run, Rw.
    assert (DR : forall d, In d (date_range s e) ->
                   day_result w None (prec_no inp) (block_no inp) d = Ok []).
    { intros d HI. destruct (Pg d HI) as (soup & table & Fe & Fi).
      unfold day_result, bind_result, extract. rewrite Fe, Fi.
      now apply scan_rows_no_layout. }
    assert (LR : loop_result w None (prec_no inp) (block_no inp) (date_range s e) = Ok tt).
    { apply all_days_ok; auto. apply Forall_forall. intros d HI.
      unfold day_ok. now rewrite (DR d HI). }
    rewrite LR in Run. exists st. split; [exact Run|].
    rewrite Rw. f_equal.
    rewrite (loop_result_ok_visited _ _ _ _ _ _ LR).
    apply flat_map_nil. intros d HI. unfold day_rows. now rewrite (DR d HI).
Qed.

Lemma no_layout_header_only_witness :
  let w := world_of page_stop in
  (forall url d ft st0 soup table,
      ft <> Some "s1" -> ft <> Some "a1" ->
      fetch w url = Ok soup -> find "table" "data2_s" soup = Some table ->
      exists st1, scraping_day_per_hour w url d ft st0 = Some (Ok [], st1)) /\
  exists st,
    create_csv_hour w input_bad_station start_state = Some (Ok tt, st) /\
    sink_rows st = [fields].
Proof.
  apply (no_layout_header_only (world_of page_stop) input_bad_station
           day_1 day_3).
  - vm_compute; reflexivity.
  - vm_compute; reflexivity.
  - vm_compute; discriminate.
  - vm_compute; discriminate.
  - discriminate.
  - intros d _. do 2 eexists. split; vm_compute; reflexivity.
Defined.

(** * Further properties *)

(** ** The Value Coercer, continued *)

Lemma number_char_digit (c : ascii) : is_digit c = true -> number_char c = true.
Proof. unfold number_char. now intros ->. Qed.

Lemma number_char_space (c : ascii) : is_space c = true -> number_char c = true.
Proof. unfold number_char. intros ->. now rewrite orb_true_r. Qed.

Lemma number_char_mark (c : ascii) :
  In c ["+"; "-"; "."; "_"]%char -> number_char c = true.
Proof.
  unfold number_char. intros H.
  assert (E : existsb (Ascii.eqb c) ["+"; "-"; "."; "_"]%char = true).
  { apply existsb_exists. exists c. split; [exact H|apply Ascii.eqb_refl]. }
  rewrite E. now rewrite orb_true_r.
Qed.

Lemma number_char_letter (c : ascii) :
  In (lower c) ["e"; "i"; "n"; "f"; "t"; "y"; "a"]%char -> number_char c = true.
Proof.
  unfold number_char. intros H.
  assert (E : existsb (Ascii.eqb (lower c))
                ["e"; "i"; "n"; "f"; "t"; "y"; "a"]%char = true).
  { apply existsb_exists. exists (lower c).
    split; [exact H|apply Ascii.eqb_refl]. }
  rewrite E. now rewrite orb_true_r.
Qed.

Lemma drop_underscores_chars (l l0 : list ascii) (prev : option ascii)
  (c : ascii) :
  drop_underscores prev l = Some l0 -> In c l -> c = "_"%char \/ In c l0.
Proof.
  revert prev l0; induction l as [|a l IH]; intros prev l0 H HI; [easy|].
  cbn [drop_underscores] in H.
  assert (K : forall p, option_map (cons a) (drop_underscores p l) = Some l0 ->
                        c = "_"%char \/ In c l0).
  { intros p Hp. destruct (drop_underscores p l) as [l1|] eqn:D;
      [|discriminate]. cbn in Hp. injection Hp as <-.
    destruct HI as [<-|HI]; [right; now left|].
    destruct (IH _ _ D HI); [now left|right; now right]. }
  destruct (Ascii.eqb_spec a "_"%char) as [->|N].
  - destruct prev as [p|]; [|discriminate].
    destruct (is_digit p); [|discriminate].
    destruct HI as [<-|HI]; [now left|eauto].
  - destruct prev as [[[] [] [] [] [] [] [] []]|]; eauto;
      destruct (is_digit a); eauto; discriminate.
Qed.

Lemma lstrip_chars (l : list ascii) (c : ascii) :
  In c l -> is_space c = true \/ In c (lstrip l).
Proof.
  induction l as [|a l IH]; [easy|]. cbn [lstrip].
  destruct (is_space a) eqn:S; [|now right].
  intros [<-|HI]; auto.
Qed.

Lemma strip_chars (l : list ascii) (c : ascii) :
  In c l -> is_space c = true \/ In c (strip l).
Proof.
  intros H. unfold strip.
  destruct (lstrip_chars l c H) as [S|H1]; [now left|].
  apply in_rev in H1.
  destruct (lstrip_chars _ c H1) as [S|H2]; [now left|].
  right. now apply in_rev in H2.
Qed.

Lemma read_sign_chars (l : list ascii) (c : ascii) :
  In c l -> In c ["+"; "-"]%char \/ In c (snd (read_sign l)).
Proof.
  unfold read_sign. destruct l as [|a l]; [easy|].
  intros [<-|HI];
    destruct a as [[] [] [] [] [] [] [] []]; cbn; auto.
Qed.

Lemma read_digits_chars (l : list ascii) (acc n a n' : Z)
  (rest : list ascii) (c : ascii) :
  read_digits l acc n = (a, n', rest) -> In c l ->
  is_digit c = true \/ In c rest.
Proof.
  revert acc n; induction l as [|x l IH]; intros acc n H HI; [easy|].
  cbn [read_digits] in H. destruct (is_digit x) eqn:D.
  - destruct HI as [<-|HI]; [now left|eauto].
  - injection H as _ _ <-. now right.
Qed.

Lemma read_exponent_chars (l : list ascii) (x : Z) (c : ascii) :
  read_exponent l = Some x -> In c l -> number_char c = true.
Proof.
  unfold read_exponent. destruct l as [|a l]; [easy|].
  destruct (Ascii.eqb_spec (lower a) "e"%char) as [E|]; [|discriminate].
  destruct (read_sign l) as [neg l1] eqn:S.
  destruct (read_digits l1 0 0) as [[v n] rest] eqn:R.
  destruct rest; [|discriminate]. intros _ [<-|HI].
  - apply number_char_letter. rewrite E. now left.
  - destruct (read_sign_chars l c HI) as [M|H1].
    + apply number_char_mark. cbn in *. tauto.
    + rewrite S in H1. cbn [snd] in H1.
      destruct (read_digits_chars _ _ _ _ _ _ c R H1) as [D|[]].
      now apply number_char_digit.
Qed.

Lemma read_decimal_chars (l : list ascii) (m e : Z) (c : ascii) :
  read_decimal l = Some (m, e) -> In c l -> number_char c = true.
Proof.
  unfold read_decimal.
  destruct (read_digits l 0 0) as [[i ni] l1] eqn:R1.
  intros H HI.
  destruct (read_digits_chars _ _ _ _ _ _ c R1 HI) as [D|H1];
    [now apply number_char_digit|].
  assert (K : forall l2 nf,
             (if 0 <? ni + nf
              then match read_exponent l2 with
                   | Some x => Some (m, x - nf)
                   | None => None
                   end
              else None) <> None ->
             In c l2 -> number_char c = true).
  { intros l2 nf Hx H2. destruct (0 <? ni + nf); [|congruence].
    destruct (read_exponent l2) as [x|] eqn:X; [|congruence].
    exact (read_exponent_chars l2 x c X H2). }
  destruct l1 as [|a l1']; [easy|].
  destruct (Ascii.eqb_spec a "."%char) as [->|N].
  - destruct (read_digits l1' i 0) as [[m' nf] l2] eqn:R2.
    destruct H1 as [<-|H1]; [apply number_char_mark; cbn; tauto|].
    destruct (read_digits_chars _ _ _ _ _ _ c R2 H1) as [D|H2];
      [now apply number_char_digit|].
    destruct (0 <? ni + nf); [|discriminate].
    destruct (read_exponent l2) as [x|] eqn:X; [|discriminate].
    exact (read_exponent_chars l2 x c X H2).
  - assert (H' : (if 0 <? ni + 0
                  then match read_exponent (a :: l1') with
                       | Some x => Some (i, x - 0)
                       | None => None
                       end
                  else None) = Some (m, e)).
    { destruct a as [[] [] [] [] [] [] [] []]; try exact H.
      exfalso. now apply N. }
    destruct (0 <? ni + 0); [|discriminate].
    destruct (read_exponent (a :: l1')) as [x|] eqn:X; [|discriminate].
    exact (read_exponent_chars _ x c X H1).
Qed.

Lemma word_chars (l : list ascii) (word : string) (c : ascii) :
  String.eqb (string_of_list_ascii (map lower l)) word = true ->
  (forall x, In x (list_ascii_of_string word) ->
             In x ["e"; "i"; "n"; "f"; "t"; "y"; "a"]%char) ->
  In c l -> number_char c = true.
Proof.
  intros E W HI. apply String.eqb_eq in E.
  apply number_char_letter, W. rewrite <- E.
  rewrite list_ascii_of_string_of_list_ascii. now apply in_map.
Qed.

(** A text that [float] accepts is written with number characters only. *)
Lemma float_of_chars_alphabet (l : list ascii) (f : pyfloat) (c : ascii) :
  float_of_chars l = Ok f -> In c l -> number_char c = true.
Proof.
  unfold float_of_chars. intros H HI.
  destruct (drop_underscores None l) as [l0|] eqn:D; [|discriminate].
  destruct (drop_underscores_chars l l0 None c D HI) as [->|H0];
    [apply number_char_mark; cbn; tauto|].
  destruct (strip_chars l0 c H0) as [S|H1]; [now apply number_char_space|].
  destruct (read_sign (strip l0)) as [neg l1] eqn:Sg.
  destruct (read_sign_chars _ c H1) as [M|H2];
    [apply number_char_mark; cbn in *; tauto|].
  rewrite Sg in H2. cbn [snd] in H2.
  destruct (String.eqb (string_of_list_ascii (map lower l1)) "inf") eqn:W1.
  { apply (word_chars l1 "inf" c W1); [|exact H2].
    cbn. intros x Hx. tauto. }
  destruct (String.eqb (string_of_list_ascii (map lower l1)) "infinity") eqn:W2.
  { apply (word_chars l1 "infinity" c W2); [|exact H2].
    cbn. intros x Hx. tauto. }
  cbn [orb] in H.
  destruct (String.eqb (string_of_list_ascii (map lower l1)) "nan") eqn:W3.
  { apply (word_chars l1 "nan" c W3); [|exact H2].
    cbn. intros x Hx. tauto. }
  destruct (read_decimal l1) as [[m e]|] eqn:R; [|discriminate].
  exact (read_decimal_chars l1 m e c R H2).
Qed.

(** X2: text that holds any character a number cannot be written with - a
    bracket, a slash, a cross, a letter other than those of inf and nan -
    is coerced to the integer 0, wherever the character stands. *)
Theorem string_to_float_foreign_character (s : string) :
  match number_text s with
  | Some l => exists c, In c l /\ number_char c = false
  | None => True
  end ->
  string_to_float s = VInt 0.
Proof.
  unfold string_to_float, float.
  destruct (number_text s) as [l|]; [|reflexivity].
  intros (c & HI & N).
  destruct (float_of_chars l) as [f|] eqn:F; [|reflexivity].
  rewrite (float_of_chars_alphabet l f c F HI) in N. discriminate.
Qed.

Lemma string_to_float_foreign_character_witness :
  string_to_float "0.5 )" = VInt 0.
Proof.
  apply (string_to_float_foreign_character "0.5 )").
  vm_compute. exists ")"%char. split; [tauto|reflexivity].
Defined.

(** ** The Day Extractor, continued *)

Lemma scan_rows_all (d : date) (ft : option string) (col : nat)
  (trs : list node) (acc : list row) :
  target_col ft = Some col ->
  Forall (fun tr => exists s, cell_string col tr = Some (Some s)) trs ->
  scan_rows d ft trs acc = Ok (acc ++ map (record_of d col) trs).
Proof.
  intros T F; revert acc; induction F as [|tr trs (s & C) F IH]; intros acc.
  - cbn. now rewrite app_nil_r.
  - rewrite (scan_rows_cons d ft col) by assumption. rewrite C, IH.
    cbn. now rewrite <- app_assoc.
Qed.

Lemma scan_rows_missing (d : date) (ft : option string) (col : nat)
  (trs : list node) (k : nat) (acc : list row) :
  target_col ft = Some col ->
  (forall j tr, (j < k)%nat -> nth_error trs j = Some tr ->
                exists s, cell_string col tr = Some (Some s)) ->
  (exists tr, nth_error trs k = Some tr /\ cell_string col tr = None) ->
  scan_rows d ft trs acc = Raise IndexError.
Proof.
  intros T; revert k acc; induction trs as [|tr trs IH]; intros k acc Hb Hk.
  - destruct Hk as (tr & Hk & _). now destruct k.
  - rewrite (scan_rows_cons d ft col) by assumption.
    destruct k as [|k].
    + destruct Hk as (tr' & Hk & C). cbn in Hk. injection Hk as <-.
      now rewrite C.
    + destruct (Hb 0%nat tr) as (s & C); [lia|reflexivity|]. rewrite C.
      apply (IH k); [|exact Hk].
      intros j tr' Hj Hn. apply (Hb (S j)); [lia|exact Hn].
Qed.

Lemma scan_rows_raise (d : date) (ft : option string)
  (trs : list node) (acc : list row) (e : exn) :
  scan_rows d ft trs acc = Raise e ->
  e = IndexError /\
  exists col tr,
    target_col ft = Some col /\ In tr trs /\ cell_string col tr = None.
Proof.
  destruct (target_col ft) as [col|] eqn:T.
  - revert acc; induction trs as [|tr trs IH]; intros acc H; [discriminate|].
    rewrite (scan_rows_cons d ft col) in H by assumption.
    destruct (cell_string col tr) as [[s|]|] eqn:C.
    + destruct (IH _ H) as (-> & col' & tr' & T' & HI & C').
      split; [reflexivity|]. exists col', tr'. cbn; auto.
    + discriminate.
    + injection H as <-. split; [reflexivity|]. exists col, tr. cbn; auto.
  - intros H. rewrite scan_rows_no_layout in H by assumption. discriminate.
Qed.

(** X3: a table whose data rows all have a text in the precipitation cell
    gives one record per data row, in the order of the rows. *)
Theorem day_extractor_complete_table (w : world) (url : string) (d : date)
  (ft : option string) (st : state) (soup table : node) (col : nat) :
  fetch w url = Ok soup ->
  find "table" "data2_s" soup = Some table ->
  target_col ft = Some col ->
  Forall (fun tr => exists s, cell_string col tr = Some (Some s))
    (skipn 2 (findAll "tr" table)) ->
  exists recs st',
    scraping_day_per_hour w url d ft st = Some (Ok recs, st') /\
    recs = map (record_of d col) (skipn 2 (findAll "tr" table)) /\
    List.length recs = (List.length (findAll "tr" table) - 2)%nat.
Proof.
  intros Fe Fi T F. do 2 eexists. split; [|split; [reflexivity|]].
  - rewrite scraping_run, Fe. unfold bind_result, extract. rewrite Fi.
    rewrite (scan_rows_all d ft col _ [] T F). reflexivity.
  - now rewrite length_map, length_skipn.
Qed.

Lemma day_extractor_complete_table_witness :
  exists recs st',
    scraping_day_per_hour (world_of page_two_rows) some_url day_1 (Some "s1")
      start_state = Some (Ok recs, st') /\
    recs = map (record_of day_1 3)
             (skipn 2 (findAll "tr"
                (table_of [s1_row "1" (td "0.5"); s1_row "2" (td "--")]))) /\
    List.length recs =
      (List.length (findAll "tr"
         (table_of [s1_row "1" (td "0.5"); s1_row "2" (td "--")])) - 2)%nat.
Proof.
  apply (day_extractor_complete_table (world_of page_two_rows) some_url day_1
           (Some "s1") start_state page_two_rows
           (table_of [s1_row "1" (td "0.5"); s1_row "2" (td "--")]) 3%nat).
  - reflexivity.
  - reflexivity.
  - reflexivity.
  - change (skipn 2 (findAll "tr"
              (table_of [s1_row "1" (td "0.5"); s1_row "2" (td "--")])))
      with [s1_row "1" (td "0.5"); s1_row "2" (td "--")].
    repeat constructor; eexists; reflexivity.
Defined.

(** X4: when the first data row without a text in its precipitation cell
    is a row that has no such cell at all, the Day Extractor raises
    [IndexError], and the records of the rows before it are lost. *)
Theorem day_extractor_missing_cell (w : world) (url : string) (d : date)
  (ft : option string) (st : state) (soup table : node) (col k : nat) :
  fetch w url = Ok soup ->
  find "table" "data2_s" soup = Some table ->
  target_col ft = Some col ->
  (forall j tr, (j < k)%nat ->
     nth_error (skipn 2 (findAll "tr" table)) j = Some tr ->
     exists s, cell_string col tr = Some (Some s)) ->
  (exists tr, nth_error (skipn 2 (findAll "tr" table)) k = Some tr /\
              cell_string col tr = None) ->
  exists st',
    scraping_day_per_hour w url d ft st = Some (Raise IndexError, st').
Proof.
  intros Fe Fi T Hb Hk. eexists.
  rewrite scraping_run, Fe. unfold bind_result, extract. rewrite Fi.
  rewrite (scan_rows_missing d ft col _ k [] T Hb Hk). reflexivity.
Qed.

Lemma day_extractor_missing_cell_witness :
  exists st',
    scraping_day_per_hour (world_of page_short_row) some_url day_1 (Some "s1")
      start_state = Some (Raise IndexError, st').
Proof.
  apply (day_extractor_missing_cell (world_of page_short_row) some_url day_1
           (Some "s1") start_state page_short_row
           (table_of [tr [td "1"; td "1013.2"]; s1_row "2" (td "0.5")])
           3%nat 0%nat).
  - reflexivity.
  - reflexivity.
  - reflexivity.
  - intros j x Hj. lia.
  - eexists. split; reflexivity.
Defined.

(** X5: the only ways the Day Extractor fails: the fetch raised, and its
    exception is passed on; or the page has no data table
    ([AttributeError]); or a data row has no precipitation cell
    ([IndexError]).  Text that is no number never makes it fail. *)
Theorem day_extractor_failures (w : world) (url : string) (d : date)
  (ft : option string) (st st' : state) (e : exn) :
  scraping_day_per_hour w url d ft st = Some (Raise e, st') ->
  fetch w url = Raise e \/
  (exists soup,
      fetch w url = Ok soup /\ find "table" "data2_s" soup = None /\
      e = AttributeError) \/
  (exists soup table col tr,
      fetch w url = Ok soup /\ find "table" "data2_s" soup = Some table /\
      target_col ft = Some col /\
      In tr (skipn 2 (findAll "tr" table)) /\
      cell_string col tr = None /\ e = IndexError).
Proof.
  rewrite scraping_run. unfold bind_result, extract. intros H.
  destruct (fetch w url) as [soup|x] eqn:Fe; [|left; congruence]. right.
  destruct (find "table" "data2_s" soup) as [table|] eqn:Fi.
  - right.
    assert (S : scan_rows d ft (skipn 2 (findAll "tr" table)) [] = Raise e)
      by congruence.
    apply scan_rows_raise in S.
    destruct S as (-> & col & tr & T & HI & C).
    exists soup, table, col, tr. repeat split; auto.
  - left. exists soup. repeat split; auto. congruence.
Qed.

Lemma day_extractor_failures_witness :
  fetch (world_of page_short_row) some_url = Raise IndexError \/
  (exists soup,
      fetch (world_of page_short_row) some_url = Ok soup /\
      find "table" "data2_s" soup = None /\ IndexError = AttributeError) \/
  (exists soup table col x,
      fetch (world_of page_short_row) some_url = Ok soup /\
      find "table" "data2_s" soup = Some table /\
      target_col (Some "s1") = Some col /\
      In x (skipn 2 (findAll "tr" table)) /\
      cell_string col x = None /\ IndexError = IndexError).
Proof.
  apply (day_extractor_failures (world_of page_short_row) some_url day_1
           (Some "s1") start_state (mkstate [] 0 [some_url] None)).
  vm_compute. reflexivity.
Defined.

Lemma record_of_shape (d : date) (col : nat) (tr : node) (s : string) :
  cell_string col tr = Some (Some s) ->
  exists hour rain,
    record_of d col tr = [VDate d; hour; rain] /\
    (hour = VNone \/ exists h, hour = VStr h) /\
    (rain = VInt 0 \/ exists f, rain = VFloat f).
Proof.
  intros C. unfold record_of. rewrite C. do 2 eexists.
  split; [reflexivity|]. split.
  - destruct (nth_error (findAll "td" tr) 0) as [label|]; [|now left].
    destruct (get_string label); cbn; eauto.
  - unfold string_to_float. destruct (float s); eauto.
Qed.



(** X7: a data table with no row after the two header rows gives the
    empty list, whatever the layout. *)
Theorem day_extractor_no_data_rows (w : world) (url : string) (d : date)
  (ft : option string) (st : state) (soup table : node) :
  fetch w url = Ok soup ->
  find "table" "data2_s" soup = Some table ->
  (List.length (findAll "tr" table) <= 2)%nat ->
  exists st', scraping_day_per_hour w url d ft st = Some (Ok [], st').
Proof.
  intros Fe Fi L. eexists.
  rewrite scraping_run, Fe. unfold bind_result, extract. rewrite Fi.
  assert (E : skipn 2 (findAll "tr" table) = []).
  { apply length_zero_iff_nil. rewrite length_skipn. lia. }
  rewrite E. reflexivity.
Qed.

Lemma day_extractor_no_data_rows_witness :
  exists st',
    scraping_day_per_hour (world_of (page_of [])) some_url day_1 (Some "a1")
      start_state = Some (Ok [], st').
Proof.
  apply (day_extractor_no_data_rows (world_of (page_of [])) some_url day_1
           (Some "a1") start_state (page_of []) (table_of [])).
  - reflexivity.
  - reflexivity.
  - cbn. lia.
Defined.

(** ** The Range Collector, continued *)





(** X9: what a run prints: its banner, the lines of the classifier, the
    date of every day it asks for, in ISO format, and the elapsed time and
    the closing line only when it ends normally. *)
Theorem range_collector_printed (w : world) (inp : user_input)
  (s e : date) :
  date_of_input (start_input_list inp) = Ok s ->
  date_of_input (end_input_list inp) = Ok e ->
  let ft := facility_of (block_no inp) in
  exists r st days,
    create_csv_hour w inp start_state = Some (r, st) /\
    requests st = map (page_url ft (prec_no inp) (block_no inp)) days /\
    stdout st =
      "雨量データを取得中..." :: classifier_lines (block_no inp) ++
      map isoformat days ++
      match r with
      | Ok _ => [processing_time w; ">>完了<<"]
      | Raise _ => []
      end.
Proof.
  intros Hs He ft.
  destruct (create_csv_hour_state w inp s e Hs He)
    as (st & Run & _ & Rq & _ & So).
  do 3 eexists. split; [exact Run|]. split; [exact Rq|exact So].
Qed.

Lemma range_collector_printed_witness :
  let w := world_of page_stop in
  exists r st days,
    create_csv_hour w input_3days start_state = Some (r, st) /\
    requests st = map (page_url (Some "s1") "44" "47662") days /\
    stdout st =
      "雨量データを取得中..." :: classifier_lines "47662" ++
      map isoformat days ++
      match r with
      | Ok _ => [processing_time w; ">>完了<<"]
      | Raise _ => []
      end.
Proof.
  apply (range_collector_printed (world_of page_stop) input_3days
           day_1 day_3); vm_compute; reflexivity.
Defined.

(** X10: a start date or an end date that cannot be read ends the run with
    the exception of the reading, before the output file is opened and
    before any page is asked for. *)
Theorem range_collector_bad_date (w : world) (inp : user_input) (x : exn) :
  (date_of_input (start_input_list inp) = Raise x \/
   exists s, date_of_input (start_input_list inp) = Ok s /\
             date_of_input (end_input_list inp) = Raise x) ->
  exists st,
    create_csv_hour w inp start_state = Some (Raise x, st) /\
    sink st = None /\ requests st = [] /\ slept st = 0.
Proof.
  intros H. unfold create_csv_hour.
  unfold bind at 1. unfold print at 1. cbv beta iota.
  unfold bind at 1. rewrite select_weather_observatory_run. cbv beta iota.
  destruct H as [Hs|(s & Hs & He)].
  - rewrite Hs. unfold bind at 1. unfold lift at 1. cbv beta iota.
    eexists. split; [reflexivity|]. cbn. auto.
  - rewrite Hs, He. unfold bind at 1. unfold lift at 1. cbv beta iota.
    unfold bind at 1. unfold lift at 1. cbv beta iota.
    eexists. split; [reflexivity|]. cbn. auto.
Qed.

Lemma range_collector_bad_date_witness :
  exists st,
    create_csv_hour (world_of page_stop) input_bad_date start_state
    = Some (Raise ValueError, st) /\
    sink st = None /\ requests st = [] /\ slept st = 0.
Proof.
  apply (range_collector_bad_date (world_of page_stop) input_bad_date
           ValueError).
  left. vm_compute. reflexivity.
Defined.

(** The rows of a day, as the Day Extractor returns them. *)
Lemma day_rows_records (w : world) (ft : option string) (pn bn : string)
  (d : date) :
  day_rows w ft pn bn d = [] \/
  exists col table k,
    target_col ft = Some col /\
    (exists soup, fetch w (page_url ft pn bn d) = Ok soup /\
                  find "table" "data2_s" soup = Some table) /\
    (k <= List.length (skipn 2 (findAll "tr" table)))%nat /\
    day_rows w ft pn bn d =
      map (record_of d col) (firstn k (skipn 2 (findAll "tr" table))) /\
    Forall (fun tr => exists s, cell_string col tr = Some (Some s))
      (firstn k (skipn 2 (findAll "tr" table))).
Proof.
  unfold day_rows.
  destruct (day_result w ft pn bn d) as [l|] eqn:R; [|now left].
  apply (scraping_day_per_hour_records w (page_url ft pn bn d) d ft
           start_state
           (mkstate (stdout start_state) (slept start_state)
              (requests start_state ++ [page_url ft pn bn d])
              (sink start_state))).
  rewrite scraping_run. unfold day_result in R. now rewrite R.
Qed.

Lemma day_rows_shape (w : world) (ft : option string) (pn bn : string)
  (d : date) :
  Forall (fun r =>
            exists hour rain,
              r = [VDate d; hour; rain] /\
              (hour = VNone \/ exists h, hour = VStr h) /\
              (rain = VInt 0 \/ exists f, rain = VFloat f))
    (day_rows w ft pn bn d).
Proof.
  destruct (day_rows_records w ft pn bn d)
    as [->|(col & table & k & _ & _ & _ & -> & F)]; [constructor|].
  apply Forall_map. revert F. apply Forall_impl. intros tr (s & C).
  exact (record_of_shape d col tr s C).
Qed.

Lemma day_rows_length (w : world) (ft : option string) (pn bn : string)
  (d : date) (n : nat) :
  (forall soup table,
      fetch w (page_url ft pn bn d) = Ok soup ->
      find "table" "data2_s" soup = Some table ->
      (List.length (findAll "tr" table) <= n + 2)%nat) ->
  (List.length (day_rows w ft pn bn d) <= n)%nat.
Proof.
  intros H.
  destruct (day_rows_records w ft pn bn d)
    as [->|(col & table & k & _ & (soup & Fe & Fi) & Hk & -> & _)];
    [cbn; lia|].
  specialize (H soup table Fe Fi).
  rewrite length_skipn in Hk. rewrite length_map, length_firstn. lia.
Qed.

Lemma flat_map_length_le {A B : Type} (f : A -> list B) (l : list A)
  (n : nat) :
  (forall x, In x l -> (List.length (f x) <= n)%nat) ->
  (List.length (flat_map f l) <= n * List.length l)%nat.
Proof.
  induction l as [|a l IH]; intros H; cbn; [lia|].
  rewrite length_app.
  pose proof (H a (or_introl eq_refl)).
  assert (List.length (flat_map f l) <= n * List.length l)%nat
    by (apply IH; intros x Hx; apply H; now right).
  lia.
Qed.

(** X11: every row of the output file has three fields; after the header
    come only records, each with a date of the range in its first field,
    so the header occurs once. *)
Theorem range_collector_rows_shape (w : world) (inp : user_input)
  (s e : date) (r : result unit) (st : state) :
  date_of_input (start_input_list inp) = Ok s ->
  date_of_input (end_input_list inp) = Ok e ->
  create_csv_hour w inp start_state = Some (r, st) ->
  exists data,
    sink_rows st = fields :: data /\
    Forall (fun x =>
              exists d hour rain,
                x = [VDate d; hour; rain] /\ In d (date_range s e))
      data /\
    ~ In fields data /\
    Forall (fun x => List.length x = 3%nat) (sink_rows st).
Proof.
  intros Hs He Run.
  destruct (create_csv_hour_state w inp s e Hs He) as (st' & Run' & Rw & _).
  assert (st' = st) by congruence. subst st'. clear Run'.
  set (ft := facility_of (block_no inp)) in *.
  destruct (visited_prefix w ft (prec_no inp) (block_no inp) (date_range s e))
    as (rest & Pre).
  set (vs := visited _ _) in *.
  assert (F : Forall (fun x => exists d hour rain,
                        x = [VDate d; hour; rain] /\ In d (date_range s e))
                (flat_map (day_rows w ft (prec_no inp) (block_no inp)) vs)).
  { apply Forall_forall. intros x Hx. apply in_flat_map in Hx.
    destruct Hx as (d & Hd & Hx).
    pose proof (day_rows_shape w ft (prec_no inp) (block_no inp) d) as Sh.
    rewrite Forall_forall in Sh.
    destruct (Sh x Hx) as (hour & rain & -> & _).
    exists d, hour, rain. split; [reflexivity|].
    rewrite Pre. apply in_or_app. now left. }
  eexists. split; [exact Rw|]. split; [exact F|]. split.
  - intros HI. rewrite Forall_forall in F.
    destruct (F _ HI) as (d & hour & rain & E & _). discriminate E.
  - rewrite Rw. constructor; [reflexivity|].
    revert F. apply Forall_impl. intros x (d & hour & rain & -> & _).
    reflexivity.
Qed.

Lemma range_collector_rows_shape_witness :
  exists st,
    create_csv_hour (world_of page_stop) input_3days start_state
    = Some (Ok tt, st) /\
    exists data,
      sink_rows st = fields :: data /\
      Forall (fun x =>
                exists d hour rain,
                  x = [VDate d; hour; rain] /\ In d (date_range day_1 day_3))
        data /\
      ~ In fields data /\
      Forall (fun x => List.length x = 3%nat) (sink_rows st).
Proof.
  eexists. split; [vm_compute; reflexivity|].
  apply (range_collector_rows_shape (world_of page_stop) input_3days
           day_1 day_3 (Ok tt)); vm_compute; reflexivity.
Defined.

(** X12: when no page of the range has a table of more than 26 rows, the
    output file has at most 24 data rows for each day of the range. *)
Theorem range_collector_rows_bound (w : world) (inp : user_input)
  (s e : date) (r : result unit) (st : state) :
  date_of_input (start_input_list inp) = Ok s ->
  date_of_input (end_input_list inp) = Ok e ->
  (forall d soup table,
      In d (date_range s e) ->
      fetch w (page_url (facility_of (block_no inp)) (prec_no inp)
                 (block_no inp) d) = Ok soup ->
      find "table" "data2_s" soup = Some table ->
      (List.length (findAll "tr" table) <= 26)%nat) ->
  create_csv_hour w inp start_state = Some (r, st) ->
  (List.length (sink_rows st) <= 1 + 24 * List.length (date_range s e))%nat.
Proof.
  intros Hs He Pg Run.
  destruct (create_csv_hour_state w inp s e Hs He) as (st' & Run' & Rw & _).
  assert (st' = st) by congruence. subst st'. clear Run'.
  set (ft := facility_of (block_no inp)) in *.
  destruct (visited_prefix w ft (prec_no inp) (block_no inp) (date_range s e))
    as (rest & Pre).
  set (vs := visited _ _) in *.
  rewrite Rw. cbn [List.length].
  assert (L : (List.length (flat_map (day_rows w ft (prec_no inp) (block_no inp)) vs)
               <= 24 * List.length vs)%nat).
  { apply flat_map_length_le. intros d Hd. apply day_rows_length.
    intros soup table Fe Fi. apply (Pg d soup table); auto.
    rewrite Pre. apply in_or_app. now left. }
  assert (List.length vs <= List.length (date_range s e))%nat.
  { rewrite Pre, length_app. lia. }
  nia.
Qed.

Lemma range_collector_rows_bound_witness :
  exists st,
    create_csv_hour (world_of page_stop) input_3days start_state
    = Some (Ok tt, st) /\
    (List.length (sink_rows st)
     <= 1 + 24 * List.length (date_range day_1 day_3))%nat.
Proof.
  eexists. split; [vm_compute; reflexivity|].
  apply (range_collector_rows_bound (world_of page_stop) input_3days
           day_1 day_3 (Ok tt)).
  - vm_compute; reflexivity.
  - vm_compute; reflexivity.
  - intros d soup table _ Fe Fi.
    unfold world_of in Fe. cbn [fetch] in Fe. injection Fe as <-.
    vm_compute in Fi. injection Fi as <-. vm_compute. lia.
  - vm_compute; reflexivity.
Defined.

Section TwoWorlds.
Variables (w1 w2 : world) (ft : option string) (pn bn : string).

Lemma same_days_loop_result (ds : list date) :
  same_days w1 w2 ft pn bn ds ->
  loop_result w1 ft pn bn ds = loop_result w2 ft pn bn ds.
Proof.
  induction ds as [|d ds IH]; intros H; [reflexivity|]. cbn [loop_result].
  rewrite (H d) by now left.
  destruct (day_result w2 ft pn bn d); [|reflexivity].
  destruct (add_one_day d); [|reflexivity].
  apply IH. intros x Hx. apply H. now right.
Qed.

Lemma same_days_visited (ds : list date) :
  same_days w1 w2 ft pn bn ds ->
  visited (day_ok w1 ft pn bn) ds = visited (day_ok w2 ft pn bn) ds.
Proof.
  induction ds as [|d ds IH]; intros H; [reflexivity|]. cbn [visited].
  unfold day_ok at 1 3. rewrite (H d) by now left.
  destruct (day_result w2 ft pn bn d); [|reflexivity].
  f_equal. apply IH. intros x Hx. apply H. now right.
Qed.

Lemma same_days_after_days (ds : list date) (st : state) :
  same_days w1 w2 ft pn bn ds ->
  after_days w1 ft pn bn ds st = after_days w2 ft pn bn ds st.
Proof.
  revert st; induction ds as [|d ds IH]; intros st H; [reflexivity|].
  rewrite !after_days_cons.
  replace (after_day w1 ft pn bn d st) with (after_day w2 ft pn bn d st).
  - apply IH. intros x Hx. apply H. now right.
  - unfold after_day, day_rows, after_request.
    now rewrite (H d) by now left.
Qed.
End TwoWorlds.

(** X13: a run looks at nothing of the world but the pages of the days of
    its range and the elapsed time: two worlds that agree on these give
    the same run. *)
Theorem range_collector_local (w1 w2 : world) (inp : user_input)
  (s e : date) :
  date_of_input (start_input_list inp) = Ok s ->
  date_of_input (end_input_list inp) = Ok e ->
  (forall d, In d (date_range s e) ->
     fetch w1 (page_url (facility_of (block_no inp)) (prec_no inp)
                 (block_no inp) d)
     = fetch w2 (page_url (facility_of (block_no inp)) (prec_no inp)
                   (block_no inp) d)) ->
  elapsed w1 = elapsed w2 ->
  create_csv_hour w1 inp start_state = create_csv_hour w2 inp start_state.
Proof.
  intros Hs He Pg El.
  rewrite (create_csv_hour_run w1 inp s e Hs He).
  rewrite (create_csv_hour_run w2 inp s e Hs He).
  set (ft := facility_of (block_no inp)) in *.
  assert (Sd : same_days w1 w2 ft (prec_no inp) (block_no inp) (date_range s e)).
  { intros d Hd. unfold day_result. now rewrite (Pg d Hd). }
  rewrite (same_days_loop_result _ _ _ _ _ _ Sd).
  rewrite (same_days_visited _ _ _ _ _ _ Sd).
  destruct (visited_prefix w2 ft (prec_no inp) (block_no inp) (date_range s e))
    as (rest & Pre).
  rewrite (same_days_after_days w1 w2 ft (prec_no inp) (block_no inp)
             (visited (day_ok w2 ft (prec_no inp) (block_no inp))
                (date_range s e))).
  - unfold finished, processing_time. now rewrite El.
  - intros d Hd. apply Sd. rewrite Pre. apply in_or_app. now left.
Qed.

Lemma range_collector_local_witness :
  create_csv_hour (world_of page_stop) input_3days start_state =
  create_csv_hour (world_failing_on (mkdate 2021 1 1)) input_3days start_state.
Proof.
  apply (range_collector_local (world_of page_stop)
           (world_failing_on (mkdate 2021 1 1)) input_3days day_1 day_3).
  - vm_compute; reflexivity.
  - vm_compute; reflexivity.
  - intros d Hd. vm_compute in Hd.
    destruct Hd as [<-|[<-|[<-|[]]]]; vm_compute; reflexivity.
  - reflexivity.
Defined.

(** ** Runs that start after earlier output *)

Lemma appends_ret {A : Type} (a : A) : appends (ret a).
Proof. intros pre st. reflexivity. Qed.

Lemma appends_lift {A : Type} (r : result A) : appends (lift r).
Proof. intros pre st. reflexivity. Qed.

Lemma appends_bind {A B : Type} (c : M A) (k : A -> M B) :
  appends c -> (forall a, appends (k a)) -> appends (bind c k).
Proof.
  intros Hc Hk pre st. unfold bind. rewrite Hc.
  destruct (c st) as [[[a|e] st']|]; cbn [after_outcome];
    [apply Hk|reflexivity|reflexivity].
Qed.

Lemma appends_print (s : string) : appends (print s).
Proof.
  intros pre st. unfold print, after_state, after_outcome.
  cbn [stdout slept requests sink]. now rewrite <- app_assoc.
Qed.

Lemma appends_sleep (n : Z) : appends (sleep n).
Proof.
  intros pre st. unfold sleep, after_state, after_outcome.
  cbn [stdout slept requests sink]. now rewrite <- Z.add_assoc.
Qed.

Lemma appends_urlopen (w : world) (url : string) : appends (urlopen w url).
Proof.
  intros pre st. unfold urlopen, after_state, after_outcome.
  cbn [stdout slept requests sink]. now rewrite <- app_assoc.
Qed.

Lemma appends_writerow (r : row) : appends (writerow r).
Proof. intros pre st. reflexivity. Qed.

Lemma appends_for_each {A : Type} (l : list A) (body : A -> M unit) :
  (forall x, appends (body x)) -> appends (for_each l body).
Proof.
  intros H. induction l as [|x l IH]; cbn [for_each].
  - apply appends_ret.
  - apply appends_bind; auto.
Qed.

Lemma appends_with_open {A : Type} (p : string) (body : M A) :
  appends body -> appends (with_open p body).
Proof.
  intros H pre st. unfold with_open.
  change (open_w p (after_state pre st)) with (after_state pre (open_w p st)).
  rewrite H. destruct (body (open_w p st)) as [[r st']|]; reflexivity.
Qed.

Lemma appends_select_weather_observatory (bn : string) :
  appends (select_weather_observatory bn).
Proof.
  unfold select_weather_observatory.
  destruct (len bn =? 5); [apply appends_ret|].
  destruct (len bn =? 4); [apply appends_ret|].
  repeat (apply appends_bind; [apply appends_print|intros _]).
  apply appends_ret.
Qed.

Lemma appends_scraping_day_per_hour (w : world) (url : string) (d : date)
  (ft : option string) : appends (scraping_day_per_hour w url d ft).
Proof.
  unfold scraping_day_per_hour.
  apply appends_bind; [apply appends_urlopen|intros soup; apply appends_lift].
Qed.

Lemma appends_date_loop (fuel : nat) (w : world) (ft : option string)
  (pn bn : string) (e d : date) : appends (date_loop fuel w ft pn bn e d).
Proof.
  revert d; induction fuel as [|fuel IH]; intros d; cbn [date_loop];
    (destruct (date_le d e); [|apply appends_ret]).
  - intros pre st. reflexivity.
  - apply appends_bind; [apply appends_sleep|intros _].
    apply appends_bind; [apply appends_print|intros _].
    apply appends_bind; [apply appends_scraping_day_per_hour|intros l].
    apply appends_bind;
      [apply appends_for_each; intros x; apply appends_writerow|intros _].
    apply appends_bind; [apply appends_lift|intros d']. apply IH.
Qed.

(** X14: a run does not look at what was printed, slept or requested
    before it, and only adds to it: started after earlier output it ends
    as from the start, with the same file. *)
Theorem create_csv_hour_appends (w : world) (inp : user_input)
  (pre st : state) :
  create_csv_hour w inp (after_state pre st) =
  after_outcome pre (create_csv_hour w inp st).
Proof.
  revert pre st. change (appends (create_csv_hour w inp)).
  unfold create_csv_hour.
  apply appends_bind; [apply appends_print|intros _].
  apply appends_bind; [apply appends_select_weather_observatory|intros ft].
  apply appends_bind; [apply appends_lift|intros s].
  apply appends_bind; [apply appends_lift|intros e].
  apply appends_bind.
  - apply appends_with_open.
    apply appends_bind; [apply appends_writerow|intros _].
    apply appends_date_loop.
  - intros _. apply appends_bind; [apply appends_print|intros _].
    apply appends_print.
Qed.

(** ** The terminal *)

Lemma split_not_nil (s : string) (sep : ascii) : split s sep <> [].
Proof.
  destruct s as [|c s]; cbn; [discriminate|].
  destruct (Ascii.eqb c sep); [discriminate|].
  destruct (split s sep); discriminate.
Qed.

Lemma join_split (s : string) (sep : ascii) :
  join (String sep "") (split s sep) = s.
Proof.
  induction s as [|c s IH]; [reflexivity|]. cbn [split].
  pose proof (split_not_nil s sep).
  destruct (split s sep) as [|p ps] eqn:E; [contradiction|].
  destruct (Ascii.eqb_spec c sep) as [->|N].
  - change (join (String sep "") ("" :: p :: ps))
      with (String sep (join (String sep "") (p :: ps))).
    now rewrite IH.
  - destruct ps as [|q ps].
    + cbn [join] in *. now rewrite IH.
    + change (join (String sep "") (String c p :: q :: ps))
        with (String c (p ++ String sep "" ++ join (String sep "") (q :: ps))%string).
      change (join (String sep "") (p :: q :: ps))
        with (p ++ String sep "" ++ join (String sep "") (q :: ps))%string in IH.
      now rewrite IH.
Qed.

Lemma split_no_sep (s : string) (sep : ascii) :
  Forall (no_sep sep) (split s sep).
Proof.
  induction s as [|c s IH]; cbn [split].
  - constructor; [|constructor]. intros [].
  - destruct (Ascii.eqb_spec c sep) as [->|N].
    + constructor; [intros []|exact IH].
    + destruct (split s sep) as [|p ps]; constructor.
      * intros [E|[]]. congruence.
      * constructor.
      * inversion IH; subst. intros [E|H]; [congruence|contradiction].
      * now inversion IH.
Qed.

Lemma split_one (s : string) (sep : ascii) :
  no_sep sep s -> split s sep = [s].
Proof.
  unfold no_sep. induction s as [|c s IH]; intros H; [reflexivity|].
  cbn [split]. cbn in H.
  destruct (Ascii.eqb_spec c sep) as [->|N]; [exfalso; auto|].
  rewrite IH by auto. reflexivity.
Qed.

Lemma split_app (a b : string) (sep : ascii) :
  no_sep sep a -> split (a ++ String sep b)%string sep = a :: split b sep.
Proof.
  unfold no_sep. induction a as [|c a IH]; intros H; cbn [append split].
  - now rewrite Ascii.eqb_refl.
  - cbn in H. destruct (Ascii.eqb_spec c sep) as [->|N]; [exfalso; auto|].
    rewrite IH by auto. reflexivity.
Qed.

(** A date typed as year/month/day is read as these three parts. *)
Lemma split_date (y m d : string) :
  no_sep "/" y -> no_sep "/" m -> no_sep "/" d ->
  split (y ++ "/" ++ m ++ "/" ++ d)%string "/" = [y; m; d].
Proof.
  intros Hy Hm Hd.
  change (y ++ "/" ++ m ++ "/" ++ d)%string
    with (y ++ String "/" (m ++ String "/" d))%string.
  now rewrite (split_app y _ "/" Hy), (split_app m _ "/" Hm), (split_one d "/" Hd).
Qed.

(** What [user_input] does when six lines can be read. *)
Lemma user_input_run (o p b s e c : string) (rest : list string) :
  exists st,
    Console.user_input (start_terminal (o :: p :: b :: s :: e :: c :: rest)) =
    Some (Returned (mkinput o p b (split s "/") (split e "/")),
          mkterminal rest asked st) /\
    sink st = None /\ requests st = [] /\ slept st = 0.
Proof.
  eexists. split; [vm_compute; reflexivity|]. vm_compute. auto.
Qed.

(** X15: [user_input] reads six lines: the first three are the output
    directory and the two station numbers as typed, the fourth and fifth
    are the dates, cut at every slash (so the parts hold no slash and,
    joined by slashes, give back the line); the sixth is read and not
    looked at.  Nothing is requested and no file is opened. *)
Theorem user_input_reads_six_lines (o p b s e c : string)
  (rest : list string) :
  exists inp t,
    Console.user_input (start_terminal (o :: p :: b :: s :: e :: c :: rest))
    = Some (Returned inp, t) /\
    output_dir inp = o /\ prec_no inp = p /\ block_no inp = b /\
    join "/" (start_input_list inp) = s /\
    join "/" (end_input_list inp) = e /\
    Forall (no_sep "/") (start_input_list inp) /\
    Forall (no_sep "/") (end_input_list inp) /\
    stdin t = rest /\ prompts t = asked /\
    sink (script t) = None /\ requests (script t) = [].
Proof.
  destruct (user_input_run o p b s e c rest) as (st & Run & Sk & Rq & _).
  exists (mkinput o p b (split s "/") (split e "/")), (mkterminal rest asked st).
  split; [exact Run|].
  cbn [output_dir prec_no block_no start_input_list end_input_list
       stdin prompts script].
  split; [reflexivity|]. split; [reflexivity|]. split; [reflexivity|].
  split; [exact (join_split s "/")|]. split; [exact (join_split e "/")|].
  split; [apply split_no_sep|]. split; [apply split_no_sep|].
  split; [reflexivity|]. split; [reflexivity|]. split; [exact Sk|exact Rq].
Qed.

(** X16: dates typed as year/month/day, with no slash inside the three
    parts, reach the Range Collector as these three parts each. *)
Theorem user_input_dates (o p b y1 m1 d1 y2 m2 d2 c : string)
  (rest : list string) :
  no_sep "/" y1 -> no_sep "/" m1 -> no_sep "/" d1 ->
  no_sep "/" y2 -> no_sep "/" m2 -> no_sep "/" d2 ->
  exists t,
    Console.user_input
      (start_terminal
         (o :: p :: b :: (y1 ++ "/" ++ m1 ++ "/" ++ d1)%string
            :: (y2 ++ "/" ++ m2 ++ "/" ++ d2)%string :: c :: rest))
    = Some (Returned (mkinput o p b [y1; m1; d1] [y2; m2; d2]), t) /\
    stdin t = rest.
Proof.
  intros Y1 M1 D1 Y2 M2 D2.
  destruct (user_input_run o p b (y1 ++ "/" ++ m1 ++ "/" ++ d1)
              (y2 ++ "/" ++ m2 ++ "/" ++ d2) c rest) as (st & Run & _).
  rewrite (split_date y1 m1 d1 Y1 M1 D1) in Run.
  rewrite (split_date y2 m2 d2 Y2 M2 D2) in Run.
  eexists. split; [exact Run|reflexivity].
Qed.

Lemma user_input_dates_witness :
  exists t,
    Console.user_input (start_terminal typed_3days)
    = Some (Returned input_3days, t) /\
    stdin t = [""].
Proof.
  apply (user_input_dates "out" "44" "47662" "2020" "1" "7" "2020" "1" "9"
           "no" [""]);
    unfold no_sep; cbn; intuition discriminate.
Defined.

(** X17: with fewer than six lines to read, [user_input] and so [main] end
    with [EOFError]: the run is never started, no page is requested and no
    file is opened. *)
Theorem main_end_of_input (w : world) (lines : list string) :
  (List.length lines < 6)%nat ->
  exists t,
    Console.main w (start_terminal lines) = Some (Uncaught EOFError, t) /\
    stdin t = [] /\ sink (script t) = None /\ requests (script t) = [].
Proof.
  intros H.
  destruct lines as [|l1 [|l2 [|l3 [|l4 [|l5 [|l6 rest]]]]]];
    try (cbn in H; lia);
    (eexists; split; [vm_compute; reflexivity|]; vm_compute; auto).
Qed.

Lemma main_end_of_input_witness :
  exists t,
    Console.main (world_of page_stop) (start_terminal ["out"; "44"])
    = Some (Uncaught EOFError, t) /\
    stdin t = [] /\ sink (script t) = None /\ requests (script t) = [].
Proof.
  apply (main_end_of_input (world_of page_stop) ["out"; "44"]).
  cbn. lia.
Defined.

Lemma after_state_start (pre : state) :
  sink pre = None -> after_state pre start_state = pre.
Proof.
  destruct pre as [o sl rq sk]. cbn. intros ->.
  unfold after_state, start_state. cbn [stdout slept requests sink].
  now rewrite !app_nil_r, Z.add_0_r.
Qed.

(** X18: with six lines typed, [main] runs the Range Collector on them: the
    file, the requests and the seconds slept are those of [create_csv_hour]
    on the typed entries, the dates cut at the slashes.  An exception of
    the run leaves [main] before the last prompt; after a run that ended
    normally [main] shows the last prompt and reads one more line. *)
Theorem main_runs_collector (w : world) (o p b s e c : string)
  (rest : list string) (r : result unit) (st : state) :
  create_csv_hour w (mkinput o p b (split s "/") (split e "/")) start_state
  = Some (r, st) ->
  exists out t,
    Console.main w (start_terminal (o :: p :: b :: s :: e :: c :: rest))
    = Some (out, t) /\
    sink (script t) = sink st /\
    requests (script t) = requests st /\
    slept (script t) = slept st /\
    match r with
    | Raise x => out = Uncaught (Script x) /\ stdin t = rest /\ prompts t = asked
    | Ok _ =>
        prompts t = asked ++ ["何かをキーを押したら終了いたします..."] /\
        match rest with
        | [] => out = Uncaught EOFError /\ stdin t = []
        | _ :: rest' => out = Returned tt /\ stdin t = rest'
        end
    end.
Proof.
  intros Run.
  destruct (user_input_run o p b s e c rest) as (st1 & U & Sk & Rq & Sl).
  assert (Run1 : create_csv_hour w (mkinput o p b (split s "/") (split e "/")) st1
                 = Some (r, after_state st1 st)).
  { rewrite <- (after_state_start st1 Sk) at 1.
    rewrite create_csv_hour_appends, Run. reflexivity. }
  unfold Console.main. unfold io_bind at 1. rewrite U.
  unfold io_bind at 1. unfold run_script at 1. cbn [script stdin prompts].
  rewrite Run1.
  assert (Rq' : requests (after_state st1 st) = requests st).
  { unfold after_state. cbn [requests]. now rewrite Rq. }
  assert (Sl' : slept (after_state st1 st) = slept st).
  { unfold after_state. cbn [slept]. rewrite Sl. lia. }
  destruct r as [[]|x].
  - unfold io_bind, input, io_ret. cbn [stdin prompts script].
    destruct rest as [|l7 rest']; do 2 eexists;
      (split; [reflexivity|]); cbn [script stdin prompts];
      repeat split; auto.
  - do 2 eexists. split; [reflexivity|]. cbn [script stdin prompts].
    repeat split; auto.
Qed.

Lemma main_runs_collector_witness :
  exists st,
    create_csv_hour (world_of page_stop) input_3days start_state
    = Some (Ok tt, st) /\
    exists out t,
      Console.main (world_of page_stop) (start_terminal typed_3days)
      = Some (out, t) /\
      sink (script t) = sink st /\
      requests (script t) = requests st /\
      slept (script t) = slept st /\
      prompts t = asked ++ ["何かをキーを押したら終了いたします..."] /\
      out = Returned tt /\ stdin t = [].
Proof.
  eexists. split; [vm_compute; reflexivity|].
  apply (main_runs_collector (world_of page_stop) "out" "44" "47662"
           "2020/1/7" "2020/1/9" "no" [""] (Ok tt)).
  vm_compute. reflexivity.
Defined.
